(** * pkcegen: PKCE parameter generation for OAuth2 authorization requests

    A shallow embedding of [pkcegen/__init__.py] (class [PKCE] and the
    module-level entry point [pkce]) together with the library routines it
    calls: [os.urandom], [base64.urlsafe_b64encode], [hashlib.sha256],
    [bytes.rstrip] / [str.rstrip], the [ascii] codec and
    [urllib.parse.urlencode].

    Conventions.
    - A Python [bytes] object is a [list byte].
    - A Python [str] is the list of its Unicode code points (an [N] each).
    - A Python [int] argument is a [Z].
    - A raised exception is the [Raise] branch of [result].
    - The operating system's entropy pool is an explicit state that
      [os.urandom] reads from and advances. *)

From Stdlib Require Import String Ascii.
From Stdlib Require Import List ZArith NArith Lia Bool.
From Stdlib Require Import Strings.Byte.
Import ListNotations.

Set Implicit Arguments.

(* ================================================================== *)
(** * Python values *)

Definition bytes := list byte.
Definition str := list N.

(** [b "..."] is the bytes literal [b'...'], [u "..."] the (ASCII) text
    literal ['...']. *)
Definition b (s : string) : bytes := list_byte_of_string s.
Definition u (s : string) : str := map Byte.to_N (list_byte_of_string s).

(** Truncation of a number to one byte. *)
Definition byte_of_N (n : N) : byte :=
  match Byte.of_N (n mod 256) with
  | Some c => c
  | None => x00
  end.

(* ================================================================== *)
(** * Exceptions and the entropy monad *)

(** The exceptions the module can raise.  In Python [UnicodeEncodeError]
    and [UnicodeDecodeError] are subclasses of [ValueError]; they are kept
    apart here so that statements can tell them from the [ValueError]s the
    module raises itself.  [OverflowError] is no [ValueError]. *)
Inductive exn : Type :=
| ValueError (msg : string)
| UnicodeEncodeError
| UnicodeDecodeError
| OverflowError.

Inductive result (A : Type) : Type :=
| Ok (a : A)
| Raise (e : exn).
Arguments Raise {A} e.

Definition rbind {A B} (r : result A) (k : A -> result B) : result B :=
  match r with
  | Ok a => k a
  | Raise e => Raise e
  end.

(** The entropy pool: the unbounded sequence of bytes still to be handed
    out by the operating system. *)
Definition entropy := nat -> byte.

Definition M (A : Type) : Type := entropy -> result (A * entropy).

Definition ret {A} (a : A) : M A := fun e => Ok (a, e).
Definition raise {A} (x : exn) : M A := fun _ => Raise x.
Definition bind {A B} (m : M A) (k : A -> M B) : M B :=
  fun e => match m e with
           | Ok (a, e') => k a e'
           | Raise x => Raise x
           end.
Definition lift {A} (r : result A) : M A :=
  fun e => match r with
           | Ok a => Ok (a, e)
           | Raise x => Raise x
           end.

Declare Scope py_scope.
Delimit Scope py_scope with py.
Notation "x <- m ;; k" := (bind m (fun x => k))
  (at level 61, m at next level, right associativity) : py_scope.

(** The first [n] bytes of the pool, and the pool once they are gone. *)
Definition pool_take (n : nat) (e : entropy) : bytes := map e (seq 0 n).
Definition pool_drop (n : nat) (e : entropy) : entropy :=
  fun i => e (n + i)%nat.

(** The largest value of a C [ssize_t] on a 64-bit platform
    ([sys.maxsize]). *)
Definition PY_SSIZE_T_MAX : Z := 9223372036854775807.

(** [os.urandom(size)].  The size is first converted to a C [ssize_t]: a
    value that does not fit raises [OverflowError].  A negative size
    raises [ValueError]; otherwise the next [size] bytes of the pool are
    returned and consumed.  A size that fits but is more than the machine
    can allocate raises [MemoryError] (or [OverflowError] next to the
    maximum) in Python; where that begins depends on the machine and is
    not modelled.  The theorems on [_s], [_n] and [pkce] therefore state
    that a call returns only for sizes of at most 128 bytes, and state
    everything else of whatever a call returns. *)
Definition urandom (size : Z) : M bytes :=
  fun e =>
    if (size <? - PY_SSIZE_T_MAX - 1)%Z || (PY_SSIZE_T_MAX <? size)%Z
    then Raise OverflowError
    else if (size <? 0)%Z
    then Raise (ValueError "negative argument not allowed")
    else let n := Z.to_nat size in
         Ok (pool_take n e, pool_drop n e).

(* ================================================================== *)
(** * Sequence helpers: [in], [rstrip], [replace], [join] *)

Section Strip.
Context {A : Type} (eqb : A -> A -> bool).

Definition mem (x : A) (cs : list A) : bool := existsb (eqb x) cs.

(** [s.rstrip(cs)]: drop the longest suffix made of elements of [cs]. *)
Fixpoint rstrip (cs s : list A) : list A :=
  match s with
  | [] => []
  | x :: r =>
      match rstrip cs r with
      | [] => if mem x cs then [] else [x]
      | r' => x :: r'
      end
  end.
End Strip.

Definition bytes_rstrip : bytes -> bytes -> bytes := rstrip Byte.eqb.
Definition str_rstrip : str -> str -> str := rstrip N.eqb.

(** [sep.join(parts)] on text. *)
Fixpoint join (sep : str) (parts : list str) : str :=
  match parts with
  | [] => []
  | [p] => p
  | p :: rest => p ++ sep ++ join sep rest
  end.

(** [s.replace(old, new)] for a one-character [old]. *)
Definition replace_char (old : N) (new : str) (s : str) : str :=
  flat_map (fun c => if N.eqb c old then new else [c]) s.

(* ================================================================== *)
(** * The [ascii] codec *)

(** [s.encode('ascii')] *)
Fixpoint encode_ascii (s : str) : result bytes :=
  match s with
  | [] => Ok []
  | c :: r =>
      if (c <? 128)%N
      then rbind (encode_ascii r) (fun t => Ok (byte_of_N c :: t))
      else Raise UnicodeEncodeError
  end.

(** [s.decode('ascii')] *)
Fixpoint decode_ascii (s : bytes) : result str :=
  match s with
  | [] => Ok []
  | c :: r =>
      if (Byte.to_N c <? 128)%N
      then rbind (decode_ascii r) (fun t => Ok (Byte.to_N c :: t))
      else Raise UnicodeDecodeError
  end.

(* ================================================================== *)
(** * [base64] *)

Module base64.

Definition table : bytes :=
  b "ABCDEFGHIJKLMNOPQRSTUVWXYZabcdefghijklmnopqrstuvwxyz0123456789+/".

Definition digit (i : N) : byte := nth (N.to_nat i) table "="%byte.

(** The [k]-th 6-bit group (counted from the least significant end) of a
    24-bit quantum. *)
Definition sextet (q : N) (k : N) : N := N.land (N.shiftr q (6 * k)) 63.

Definition quantum (x y z : byte) : N :=
  N.lor (N.shiftl (Byte.to_N x) 16)
        (N.lor (N.shiftl (Byte.to_N y) 8) (Byte.to_N z)).

(** [base64.b64encode(s)]: three input bytes give four digits; a final
    group of one or two bytes is zero-filled and padded with ['=']. *)
Fixpoint b64encode (s : bytes) : bytes :=
  match s with
  | [] => []
  | [x] =>
      let q := quantum x x00 x00 in
      [digit (sextet q 3); digit (sextet q 2); "="%byte; "="%byte]
  | [x; y] =>
      let q := quantum x y x00 in
      [digit (sextet q 3); digit (sextet q 2); digit (sextet q 1); "="%byte]
  | x :: y :: z :: rest =>
      let q := quantum x y z in
      digit (sextet q 3) :: digit (sextet q 2) ::
      digit (sextet q 1) :: digit (sextet q 0) :: b64encode rest
  end.

(** [bytes.maketrans(b'+/', b'-_')] *)
Definition urlsafe_translation (c : byte) : byte :=
  if Byte.eqb c "+"%byte then "-"%byte
  else if Byte.eqb c "/"%byte then "_"%byte
  else c.

(** [base64.urlsafe_b64encode(s)] *)
Definition urlsafe_b64encode (s : bytes) : bytes :=
  map urlsafe_translation (b64encode s).

End base64.

(* ================================================================== *)
(** * [hashlib.sha256] (FIPS 180-4) on 32-bit words held in [N] *)

Module hashlib.
Local Open Scope N_scope.

Definition wrap (x : N) : N := x mod 4294967296.
Definition plus32 (x y : N) : N := wrap (x + y).
Definition rotr (k x : N) : N :=
  N.lor (N.shiftr x k) (wrap (N.shiftl x (32 - k))).
Definition not32 (x : N) : N := N.lxor x 4294967295.

Definition choose (x y z : N) : N :=
  N.lxor (N.land x y) (N.land (not32 x) z).
Definition majority (x y z : N) : N :=
  N.lxor (N.lxor (N.land x y) (N.land x z)) (N.land y z).
Definition big_sigma0 (x : N) : N :=
  N.lxor (N.lxor (rotr 2 x) (rotr 13 x)) (rotr 22 x).
Definition big_sigma1 (x : N) : N :=
  N.lxor (N.lxor (rotr 6 x) (rotr 11 x)) (rotr 25 x).
Definition small_sigma0 (x : N) : N :=
  N.lxor (N.lxor (rotr 7 x) (rotr 18 x)) (N.shiftr x 3).
Definition small_sigma1 (x : N) : N :=
  N.lxor (N.lxor (rotr 17 x) (rotr 19 x)) (N.shiftr x 10).

Definition round_constants : list N :=
  [ 0x428A2F98; 0x71374491; 0xB5C0FBCF; 0xE9B5DBA5;
    0x3956C25B; 0x59F111F1; 0x923F82A4; 0xAB1C5ED5;
    0xD807AA98; 0x12835B01; 0x243185BE; 0x550C7DC3;
    0x72BE5D74; 0x80DEB1FE; 0x9BDC06A7; 0xC19BF174;
    0xE49B69C1; 0xEFBE4786; 0x0FC19DC6; 0x240CA1CC;
    0x2DE92C6F; 0x4A7484AA; 0x5CB0A9DC; 0x76F988DA;
    0x983E5152; 0xA831C66D; 0xB00327C8; 0xBF597FC7;
    0xC6E00BF3; 0xD5A79147; 0x06CA6351; 0x14292967;
    0x27B70A85; 0x2E1B2138; 0x4D2C6DFC; 0x53380D13;
    0x650A7354; 0x766A0ABB; 0x81C2C92E; 0x92722C85;
    0xA2BFE8A1; 0xA81A664B; 0xC24B8B70; 0xC76C51A3;
    0xD192E819; 0xD6990624; 0xF40E3585; 0x106AA070;
    0x19A4C116; 0x1E376C08; 0x2748774C; 0x34B0BCB5;
    0x391C0CB3; 0x4ED8AA4A; 0x5B9CCA4F; 0x682E6FF3;
    0x748F82EE; 0x78A5636F; 0x84C87814; 0x8CC70208;
    0x90BEFFFA; 0xA4506CEB; 0xBEF9A3F7; 0xC67178F2 ].

(** The eight working variables / chaining values. *)
Record regs : Type := Regs {
  ra : N; rb : N; rc : N; rd : N; re : N; rf : N; rg : N; rh : N
}.

Definition initial_hash : regs :=
  Regs 0x6A09E667 0xBB67AE85 0x3C6EF372 0xA54FF53A
       0x510E527F 0x9B05688C 0x1F83D9AB 0x5BE0CD19.

(** Big-endian conversions between words and bytes. *)
Definition word_of_bytes (p : bytes) : N :=
  fold_left (fun acc c => acc * 256 + Byte.to_N c) p 0.

Definition bytes_of_word (x : N) : bytes :=
  [ byte_of_N (N.shiftr x 24); byte_of_N (N.shiftr x 16);
    byte_of_N (N.shiftr x 8); byte_of_N x ].

(** Cut a sequence into [n] consecutive pieces of [k] elements. *)
Fixpoint pieces {A} (k n : nat) (s : list A) : list (list A) :=
  match n with
  | O => []
  | S n' => firstn k s :: pieces k n' (skipn k s)
  end.

(** Padding: a 1 bit, zero bits up to 56 modulo 64 bytes, then the
    message length in bits as a 64-bit big-endian number. *)
Definition pad (msg : bytes) : bytes :=
  let len := length msg in
  let zeros := ((64 - (len + 9) mod 64) mod 64)%nat in
  let bits := N.of_nat len * 8 in
  msg ++ [x80] ++ repeat x00 zeros
      ++ bytes_of_word (N.shiftr bits 32) ++ bytes_of_word (wrap bits).

(** Message schedule: sixteen words of the block, extended to
    sixty-four. *)
Fixpoint extend (steps : nat) (w : list N) : list N :=
  match steps with
  | O => w
  | S steps' =>
      let t := length w in
      let at_ (k : nat) := nth (t - k) w 0 in
      let x := plus32 (plus32 (small_sigma1 (at_ 2%nat)) (at_ 7%nat))
                      (plus32 (small_sigma0 (at_ 15%nat)) (at_ 16%nat)) in
      extend steps' (w ++ [x])
  end.

Definition schedule (block : bytes) : list N :=
  extend 48 (map word_of_bytes (pieces 4 16 block)).

Definition round (r : regs) (kw : N * N) : regs :=
  let t1 := plus32 (plus32 (plus32 (rh r) (big_sigma1 (re r)))
                           (plus32 (choose (re r) (rf r) (rg r)) (fst kw)))
                   (snd kw) in
  let t2 := plus32 (big_sigma0 (ra r)) (majority (ra r) (rb r) (rc r)) in
  Regs (plus32 t1 t2) (ra r) (rb r) (rc r)
       (plus32 (rd r) t1) (re r) (rf r) (rg r).

Definition compress (h : regs) (block : bytes) : regs :=
  let r := fold_left round (combine round_constants (schedule block)) h in
  Regs (plus32 (ra h) (ra r)) (plus32 (rb h) (rb r))
       (plus32 (rc h) (rc r)) (plus32 (rd h) (rd r))
       (plus32 (re h) (re r)) (plus32 (rf h) (rf r))
       (plus32 (rg h) (rg r)) (plus32 (rh h) (rh r)).

Definition output (h : regs) : bytes :=
  bytes_of_word (ra h) ++ bytes_of_word (rb h) ++
  bytes_of_word (rc h) ++ bytes_of_word (rd h) ++
  bytes_of_word (re h) ++ bytes_of_word (rf h) ++
  bytes_of_word (rg h) ++ bytes_of_word (rh h).

(** [hashlib.sha256(msg).digest()] *)
Definition sha256 (msg : bytes) : bytes :=
  let padded := pad msg in
  output (fold_left compress
                    (pieces 64 (length padded / 64) padded)
                    initial_hash).

End hashlib.

(* ================================================================== *)
(** * [urllib.parse]: [quote], [quote_plus], [urlencode] *)

Module urllib.
Local Open Scope N_scope.

(** One code point under [str.encode('utf-8', 'strict')].  Surrogates
    cannot be encoded; values above U+10FFFF do not occur in a Python
    [str] and are rejected as well. *)
Definition encode_utf8_char (c : N) : result bytes :=
  if c <? 0x80 then Ok [byte_of_N c]
  else if c <? 0x800 then
    Ok [byte_of_N (0xC0 + N.shiftr c 6); byte_of_N (0x80 + N.land c 0x3F)]
  else if c <? 0x10000 then
    if (0xD800 <=? c) && (c <=? 0xDFFF) then Raise UnicodeEncodeError
    else Ok [byte_of_N (0xE0 + N.shiftr c 12);
             byte_of_N (0x80 + N.land (N.shiftr c 6) 0x3F);
             byte_of_N (0x80 + N.land c 0x3F)]
  else if c <? 0x110000 then
    Ok [byte_of_N (0xF0 + N.shiftr c 18);
        byte_of_N (0x80 + N.land (N.shiftr c 12) 0x3F);
        byte_of_N (0x80 + N.land (N.shiftr c 6) 0x3F);
        byte_of_N (0x80 + N.land c 0x3F)]
  else Raise UnicodeEncodeError.

Fixpoint encode_utf8 (s : str) : result bytes :=
  match s with
  | [] => Ok []
  | c :: r =>
      rbind (encode_utf8_char c) (fun h =>
      rbind (encode_utf8 r) (fun t => Ok (h ++ t)))
  end.

(** [safe.encode('ascii', 'ignore')] *)
Definition encode_ascii_ignore (s : str) : bytes :=
  map byte_of_N (filter (fun c => c <? 128) s).

(** [_ALWAYS_SAFE_BYTES] *)
Definition always_safe : bytes :=
  b "ABCDEFGHIJKLMNOPQRSTUVWXYZabcdefghijklmnopqrstuvwxyz0123456789_.-~".

Definition hex_digit (n : N) : N :=
  nth (N.to_nat n) (u "0123456789ABCDEF") 0.

(** [_Quoter(safe)(c)]: [chr(c)] for a safe byte, ['%{:02X}'.format(c)]
    for any other. *)
Definition quoter (safe : bytes) (c : byte) : str :=
  if mem Byte.eqb c (always_safe ++ safe)
  then [Byte.to_N c]
  else [0x25; hex_digit (Byte.to_N c / 16); hex_digit (Byte.to_N c mod 16)].

(** [quote_from_bytes(bs, safe)].  On the fast path every byte of [bs]
    is an ASCII byte, where [bs.decode()] is the [ascii] decoding. *)
Definition quote_from_bytes (bs : bytes) (safe : str) : result str :=
  match bs with
  | [] => Ok []
  | _ =>
      let safe_bytes := encode_ascii_ignore safe in
      match bytes_rstrip (always_safe ++ safe_bytes) bs with
      | [] => decode_ascii bs
      | _ => Ok (flat_map (quoter safe_bytes) bs)
      end
  end.

(** [quote(string, safe)] on text, with the default [utf-8] / [strict]. *)
Definition quote (string : str) (safe : str) : result str :=
  match string with
  | [] => Ok string
  | _ => rbind (encode_utf8 string) (fun bs => quote_from_bytes bs safe)
  end.

(** [quote_plus(string, safe)] on text. *)
Definition quote_plus (string : str) (safe : str) : result str :=
  if negb (mem N.eqb 0x20 string) then quote string safe
  else
    let space := u " " in
    rbind (quote string (safe ++ space)) (fun quoted =>
    Ok (replace_char 0x20 (u "+") quoted)).

(** The loop of [urlencode(query)] over the items of the mapping, in
    their order, with [doseq=False], [safe=''] and [quote_via=quote_plus]. *)
Fixpoint urlencode_items (query : list (str * str)) : result (list str) :=
  match query with
  | [] => Ok []
  | (k, v) :: rest =>
      rbind (quote_plus k []) (fun k' =>
      rbind (quote_plus v []) (fun v' =>
      rbind (urlencode_items rest) (fun l =>
      Ok ((k' ++ u "=" ++ v') :: l))))
  end.

(** [urlencode(query)] for a [dict] of text keys and values, given as its
    items in insertion order. *)
Definition urlencode (query : list (str * str)) : result str :=
  rbind (urlencode_items query) (fun l => Ok (join (u "&") l)).

End urllib.

(* ================================================================== *)
(** * The module [pkcegen] *)

Fixpoint str_eqb (s t : str) : bool :=
  match s, t with
  | [], [] => true
  | c :: s', d :: t' => N.eqb c d && str_eqb s' t'
  | _, _ => false
  end.

(** Instances of [class PKCE]. *)
Record PKCE : Type := mkPKCE {
  client_id : str;
  redirect_uri : str;
  scope : str;
  code_challenge_method : str
}.

(** [PKCE.__init__] *)
Definition __init__ (client_id redirect_uri scope code_challenge_method : str)
  : PKCE :=
  mkPKCE client_id redirect_uri scope code_challenge_method.

Local Open Scope py_scope.

(** [PKCE._code_v] *)
Definition _code_v (self : PKCE) (length : Z) : M str :=
  if negb ((32 <=? length)%Z && (length <=? 128)%Z)
  then raise (ValueError
         "Code verifier length must be between 43 and 128 characters.")
  else
    raw <- urandom length ;;
    lift (decode_ascii
            (bytes_rstrip (b "=") (base64.urlsafe_b64encode raw))).

(** [PKCE._code_c] *)
Definition _code_c (self : PKCE) (code_verifier : str) : M str :=
  if str_eqb (code_challenge_method self) (u "S256") then
    data <- lift (encode_ascii code_verifier) ;;
    let code_challenge := hashlib.sha256 data in
    lift (decode_ascii
            (bytes_rstrip (b "=")
               (base64.urlsafe_b64encode code_challenge)))
  else if str_eqb (code_challenge_method self) (u "plain") then
    ret code_verifier
  else
    raise (ValueError
      "Unsupported code_challenge_method. Choose either 'S256' or 'plain'.").

(** [PKCE._s] *)
Definition _s (self : PKCE) (length : Z) : M str :=
  raw <- urandom length ;;
  text <- lift (decode_ascii (base64.urlsafe_b64encode raw)) ;;
  ret (str_rstrip (u "=") text).

(** [PKCE._n] *)
Definition _n (self : PKCE) (length : Z) : M str :=
  raw <- urandom length ;;
  text <- lift (decode_ascii (base64.urlsafe_b64encode raw)) ;;
  ret (str_rstrip (u "=") text).

(** The [dict] built by [_gen_p], as its items in insertion order. *)
Definition data (self : PKCE) (code_challenge state nonce : str)
  : list (str * str) :=
  [ (u "client_id", client_id self);
    (u "scope", scope self);
    (u "redirect_uri", redirect_uri self);
    (u "code_challenge", code_challenge);
    (u "code_challenge_method", code_challenge_method self);
    (u "state", state);
    (u "nonce", nonce) ].

(** [PKCE._gen_p] *)
Definition _gen_p (self : PKCE)
    (code_verifier_length state_length nonce_length : Z) : M (str * str) :=
  code_verifier <- _code_v self code_verifier_length ;;
  code_challenge <- _code_c self code_verifier ;;
  state <- _s self state_length ;;
  nonce <- _n self nonce_length ;;
  payload <- lift (urllib.urlencode
                     (data self code_challenge state nonce)) ;;
  ret (payload, code_verifier).

(** The module-level [pkce]: a [staticmethod] object at module level,
    callable as a plain function (Python 3.10 and later). *)
Definition pkce (client_id redirect_uri scope code_challenge_method : str)
    (code_verifier_length state_length nonce_length : Z) : M (str * str) :=
  let pkce_instance :=
    __init__ client_id redirect_uri scope code_challenge_method in
  _gen_p pkce_instance code_verifier_length state_length nonce_length.

Local Close Scope py_scope.

(* ================================================================== *)
(** * Reference notions used by the statements *)

(** The value a call returns, leaving the entropy pool aside. *)
Definition value {A} (m : M A) (e : entropy) : result A :=
  match m e with
  | Ok (a, _) => Ok a
  | Raise x => Raise x
  end.

(** ASCII text: every code point is below 128. *)
Definition is_ascii (s : str) : Prop := Forall (fun c => (c < 128)%N) s.

(** The bytes of an ASCII text, and the text of ASCII bytes. *)
Definition ascii_bytes (s : str) : bytes := map byte_of_N s.
Definition ascii_text (s : bytes) : str := map Byte.to_N s.

(** The URL-safe base64 alphabet of RFC 4648, section 5:
    [A-Z], [a-z], [0-9], [-] and [_].  The padding character [=] is not
    part of it. *)
Definition is_urlsafe (c : N) : bool :=
  ((0x41 <=? c) && (c <=? 0x5A) || (0x61 <=? c) && (c <=? 0x7A)
   || (0x30 <=? c) && (c <=? 0x39) || (c =? 0x2D) || (c =? 0x5F))%N.

Definition urlsafe_text (s : str) : Prop :=
  Forall (fun c => is_urlsafe c = true) s /\ ~ In 0x3D%N s.

(** Unpadded URL-safe base64, written directly: no padding is ever
    produced, so none has to be removed. *)
Module base64url.

Definition table : bytes :=
  b "ABCDEFGHIJKLMNOPQRSTUVWXYZabcdefghijklmnopqrstuvwxyz0123456789-_".

Definition digit (i : N) : byte := nth (N.to_nat i) table "="%byte.

Fixpoint encode (s : bytes) : bytes :=
  match s with
  | [] => []
  | [x] =>
      let q := base64.quantum x x00 x00 in
      [digit (base64.sextet q 3); digit (base64.sextet q 2)]
  | [x; y] =>
      let q := base64.quantum x y x00 in
      [digit (base64.sextet q 3); digit (base64.sextet q 2);
       digit (base64.sextet q 1)]
  | x :: y :: z :: rest =>
      let q := base64.quantum x y z in
      digit (base64.sextet q 3) :: digit (base64.sextet q 2) ::
      digit (base64.sextet q 1) :: digit (base64.sextet q 0) ::
      encode rest
  end.

(** Number of digits for [n] input bytes: the ceiling of [4n/3]. *)
Definition encoded_length (n : nat) : nat := (4 * n + 2) / 3.

End base64url.

(** [application/x-www-form-urlencoded], written byte by byte over the
    UTF-8 encoding of a value: a space becomes [+], an unreserved
    character (letter, digit, [-], [.], [_], [~]) stands for itself, and
    every other byte becomes [%XX] with two upper-case hexadecimal digits. *)
Module form.
Local Open Scope N_scope.

Definition unreserved (c : N) : bool :=
  (0x41 <=? c) && (c <=? 0x5A) || (0x61 <=? c) && (c <=? 0x7A)
  || (0x30 <=? c) && (c <=? 0x39)
  || (c =? 0x2D) || (c =? 0x2E) || (c =? 0x5F) || (c =? 0x7E).

Definition hex (n : N) : N :=
  if n <? 10 then 0x30 + n else 0x41 + (n - 10).

Definition encode_byte (c : byte) : str :=
  let n := Byte.to_N c in
  if n =? 0x20 then [0x2B]
  else if unreserved n then [n]
  else [0x25; hex (n / 16); hex (n mod 16)].

Definition encode_value (s : str) : result str :=
  rbind (urllib.encode_utf8 s) (fun bs => Ok (flat_map encode_byte bs)).

(** The serialization of an ordered list of fields:
    [name=value] pairs in the order given, separated by [&]. *)
Fixpoint encode_fields (fields : list (str * str)) : result (list str) :=
  match fields with
  | [] => Ok []
  | (name, v) :: rest =>
      rbind (encode_value name) (fun name' =>
      rbind (encode_value v) (fun v' =>
      rbind (encode_fields rest) (fun l =>
      Ok ((name' ++ [0x3D] ++ v') :: l))))
  end.

Definition serialize (fields : list (str * str)) : result str :=
  rbind (encode_fields fields) (fun l => Ok (join [0x26] l)).

(** Reading a payload back: cut it at every [&], cut each piece at its
    first [=], and look a field up by name. *)
Fixpoint split_on (sep : N) (s : str) : list str :=
  match s with
  | [] => [[]]
  | c :: r =>
      if c =? sep then [] :: split_on sep r
      else match split_on sep r with
           | [] => [[c]]
           | p :: ps => (c :: p) :: ps
           end
  end.

Fixpoint cut_at (sep : N) (s : str) : str * str :=
  match s with
  | [] => ([], [])
  | c :: r =>
      if c =? sep then ([], r)
      else let (h, t) := cut_at sep r in (c :: h, t)
  end.

Fixpoint lookup (name : str) (fields : list (str * str)) : option str :=
  match fields with
  | [] => None
  | (k, v) :: rest => if str_eqb k name then Some v else lookup name rest
  end.

Definition field (name : str) (payload : str) : option str :=
  lookup name (map (cut_at 0x3D) (split_on 0x26 payload)).

End form.

(** The S256 challenge of a verifier as the specification words it:
    the URL-safe base64 encoding, with the trailing [=] padding stripped,
    of the SHA-256 digest of the ASCII bytes of the verifier. *)
Definition S256_challenge (v : str) : str :=
  ascii_text
    (bytes_rstrip (b "=")
       (base64.urlsafe_b64encode (hashlib.sha256 (ascii_bytes v)))).

(** The challenge belonging to a verifier under a supported method. *)
Definition challenge_of (method code_verifier : str) : str :=
  if str_eqb method (u "S256") then S256_challenge code_verifier
  else code_verifier.

(** The text of a payload whose seven values are already encoded: the
    fields in the order [client_id], [scope], [redirect_uri],
    [code_challenge], [code_challenge_method], [state], [nonce]. *)
Definition payload_text
    (client_id scope redirect_uri code_challenge method state nonce : str)
  : str :=
  u "client_id=" ++ client_id ++
  u "&scope=" ++ scope ++
  u "&redirect_uri=" ++ redirect_uri ++
  u "&code_challenge=" ++ code_challenge ++
  u "&code_challenge_method=" ++ method ++
  u "&state=" ++ state ++
  u "&nonce=" ++ nonce.

(** The messages of the two [ValueError]s the module raises itself. *)
Definition length_message : string :=
  "Code verifier length must be between 43 and 128 characters.".
Definition method_message : string :=
  "Unsupported code_challenge_method. Choose either 'S256' or 'plain'.".

(** A sample entropy pool, for running the code on concrete inputs, with
    the verifier and the payloads [pkce] produces from it. *)
Definition sample_pool : entropy :=
  fun i => byte_of_N (N.of_nat (i * 37 + 11)).

Definition sample_verifier : str :=
  u "CzBVep_E6Q4zWH2ix-wRNluApcrvFDleg6jN8hc8YYY".

Definition sample_payload : str :=
  u "client_id=abc&scope=openid+profile"
  ++ u "&redirect_uri=https%3A%2F%2Fexample.com%2Fcb"
  ++ u "&code_challenge=F-83crhCIQCO17sRSfkFanE5VeZRT-XclLYfcgKs150"
  ++ u "&code_challenge_method=S256"
  ++ u "&state=q9D1Gj9kia7T-B1CZ4yx1g&nonce=-yBFao-02f4jSG2St9wBJg".

Definition sample_payload_empty_state : str :=
  u "client_id=abc&scope=openid+profile"
  ++ u "&redirect_uri=https%3A%2F%2Fexample.com%2Fcb"
  ++ u "&code_challenge=F-83crhCIQCO17sRSfkFanE5VeZRT-XclLYfcgKs150"
  ++ u "&code_challenge_method=S256"
  ++ u "&state=&nonce=q9D1Gj9kia7T-B1CZ4yx1g".

(* ================================================================== *)
(** * Further reference notions *)

(** The text [_code_v] makes of the bytes it draws. *)
Definition secret_of (raw : bytes) : str :=
  ascii_text (bytes_rstrip (b "=") (base64.urlsafe_b64encode raw)).

(** The [n] bytes of the pool from position [k] on. *)
Definition pool_slice (k n : nat) (e : entropy) : bytes := map e (seq k n).

(** Text that [str.encode('utf-8')] accepts: code points up to U+10FFFF
    other than the surrogates U+D800 to U+DFFF. *)
Definition encodable_char (c : N) : bool :=
  ((c <? 0xD800) || (0xDFFF <? c) && (c <? 0x110000))%N.

Definition encodable (s : str) : Prop :=
  Forall (fun c => encodable_char c = true) s.

(** The characters a payload is made of: unreserved characters and the
    four marks [%], [+], [&] and [=]. *)
Definition payload_char (c : N) : bool :=
  (form.unreserved c
   || (c =? 0x25) || (c =? 0x2B) || (c =? 0x26) || (c =? 0x3D))%N.

(** The payload cut into its [name=value] pieces. *)
Definition payload_fields (payload : str) : list (str * str) :=
  map (form.cut_at 0x3D) (form.split_on 0x26 payload).

(** The payload [pkce] produces from the sample pool with method
    ["plain"]. *)
Definition sample_payload_plain : str :=
  u "client_id=abc&scope=openid+profile"
  ++ u "&redirect_uri=https%3A%2F%2Fexample.com%2Fcb"
  ++ u "&code_challenge=CzBVep_E6Q4zWH2ix-wRNluApcrvFDleg6jN8hc8YYY"
  ++ u "&code_challenge_method=plain"
  ++ u "&state=q9D1Gj9kia7T-B1CZ4yx1g&nonce=-yBFao-02f4jSG2St9wBJg".

(* ================================================================== *)
(** * Facts about the helpers *)

Lemma byte_eqb_eq (x y : byte) : Byte.eqb x y = true <-> x = y.
Proof.
  split; [apply Byte.byte_dec_bl | apply Byte.byte_dec_lb].
Qed.

Lemma to_N_lt_256 (c : byte) : (Byte.to_N c < 256)%N.
Proof.
  pose proof (Byte.to_N_bounded c). lia.
Qed.

Lemma to_N_inj (x y : byte) : Byte.to_N x = Byte.to_N y -> x = y.
Proof.
  intros H.
  assert (E : Byte.of_N (Byte.to_N x) = Byte.of_N (Byte.to_N y))
    by now rewrite H.
  rewrite !Byte.of_to_N in E. now inversion E.
Qed.

Lemma to_N_eqb (x y : byte) : N.eqb (Byte.to_N x) (Byte.to_N y) = Byte.eqb x y.
Proof.
  destruct (Byte.eqb x y) eqn:E.
  - apply byte_eqb_eq in E. subst. apply N.eqb_refl.
  - apply N.eqb_neq. intros H. apply to_N_inj in H.
    apply byte_eqb_eq in H. congruence.
Qed.

Lemma byte_of_to_N (c : byte) : byte_of_N (Byte.to_N c) = c.
Proof.
  unfold byte_of_N.
  rewrite N.mod_small by apply to_N_lt_256.
  now rewrite Byte.of_to_N.
Qed.

Lemma to_N_byte_of_N (n : N) : Byte.to_N (byte_of_N n) = (n mod 256)%N.
Proof.
  unfold byte_of_N.
  destruct (Byte.of_N (n mod 256)) eqn:E.
  - now apply Byte.to_of_N.
  - apply Byte.of_N_None_iff in E.
    pose proof (N.mod_upper_bound n 256). lia.
Qed.

Lemma str_eqb_eq (s t : str) : str_eqb s t = true <-> s = t.
Proof.
  revert t. induction s as [|c s IH]; intros [|d t]; simpl;
    try (split; [discriminate | discriminate]); try tauto.
  rewrite andb_true_iff, N.eqb_eq, IH.
  split; [intros [-> ->]; reflexivity | intros H; inversion H; auto].
Qed.

Lemma str_eqb_neq (s t : str) : s <> t -> str_eqb s t = false.
Proof.
  intros H. destruct (str_eqb s t) eqn:E; [|reflexivity].
  apply str_eqb_eq in E. contradiction.
Qed.

(** ** [rstrip] *)

Section StripFacts.
Context {A : Type} (eqb : A -> A -> bool).
Variable cs : list A.

Lemma rstrip_keep (x : A) (s : list A) :
  mem eqb x cs = false -> rstrip eqb cs (x :: s) = x :: rstrip eqb cs s.
Proof.
  intros H. simpl. rewrite H. now destruct (rstrip eqb cs s).
Qed.

Lemma rstrip_clean (s : list A) :
  Forall (fun x => mem eqb x cs = false) s -> rstrip eqb cs s = s.
Proof.
  induction 1 as [|x s Hx _ IH]; [reflexivity|].
  now rewrite rstrip_keep, IH.
Qed.

Lemma rstrip_app_clean (s t : list A) :
  Forall (fun x => mem eqb x cs = false) s ->
  rstrip eqb cs (s ++ t) = s ++ rstrip eqb cs t.
Proof.
  induction 1 as [|x s Hx _ IH]; [reflexivity|].
  simpl app. now rewrite rstrip_keep, IH.
Qed.

Lemma rstrip_all (s : list A) :
  Forall (fun x => mem eqb x cs = true) s -> rstrip eqb cs s = [].
Proof.
  induction 1 as [|x s Hx _ IH]; [reflexivity|].
  simpl. now rewrite IH, Hx.
Qed.

Lemma rstrip_nil_inv (s : list A) :
  rstrip eqb cs s = [] -> Forall (fun x => mem eqb x cs = true) s.
Proof.
  induction s as [|x s IH]; simpl; [constructor|].
  destruct (rstrip eqb cs s) eqn:E; [|discriminate].
  destruct (mem eqb x cs) eqn:Hx; [|discriminate].
  intros _. constructor; auto.
Qed.
End StripFacts.

Lemma rstrip_map {A B} (eqA : A -> A -> bool) (eqB : B -> B -> bool)
    (f : A -> B) (cs s : list A) :
  (forall x y, eqB (f x) (f y) = eqA x y) ->
  rstrip eqB (map f cs) (map f s) = map f (rstrip eqA cs s).
Proof.
  intros Hf.
  assert (Hmem : forall x, mem eqB (f x) (map f cs) = mem eqA x cs).
  { intros x. unfold mem. induction cs as [|c cs' IH]; simpl; [reflexivity|].
    now rewrite Hf, IH. }
  induction s as [|x s IH]; simpl; [reflexivity|].
  rewrite IH, Hmem.
  destruct (rstrip eqA cs s); simpl; [destruct (mem eqA x cs)|]; reflexivity.
Qed.

(** ** The [ascii] codec *)

Lemma decode_ascii_ok (s : bytes) :
  Forall (fun c => (Byte.to_N c < 128)%N) s ->
  decode_ascii s = Ok (ascii_text s).
Proof.
  induction 1 as [|c s Hc _ IH]; simpl; [reflexivity|].
  apply N.ltb_lt in Hc. now rewrite Hc, IH.
Qed.

Lemma encode_ascii_ok (s : str) :
  is_ascii s -> encode_ascii s = Ok (ascii_bytes s).
Proof.
  induction 1 as [|c s Hc _ IH]; simpl; [reflexivity|].
  apply N.ltb_lt in Hc. now rewrite Hc, IH.
Qed.

Lemma encode_ascii_raises (s : str) :
  ~ is_ascii s -> encode_ascii s = Raise UnicodeEncodeError.
Proof.
  induction s as [|c s IH]; intros H.
  - exfalso. apply H. constructor.
  - simpl. destruct (c <? 128)%N eqn:Hc; [|reflexivity].
    rewrite IH; [reflexivity|].
    intros Hs. apply H. constructor; [now apply N.ltb_lt | exact Hs].
Qed.

Lemma ascii_bytes_text (s : bytes) : ascii_bytes (ascii_text s) = s.
Proof.
  unfold ascii_bytes, ascii_text. rewrite map_map.
  induction s as [|c s IH]; simpl; [reflexivity|].
  now rewrite byte_of_to_N, IH.
Qed.

(** ** Base64 *)

(** Input is consumed three bytes at a time. *)
Lemma triples_ind (P : bytes -> Prop) :
  P [] ->
  (forall x, P [x]) ->
  (forall x y, P [x; y]) ->
  (forall x y z r, P r -> P (x :: y :: z :: r)) ->
  forall s, P s.
Proof.
  intros H0 H1 H2 H3 s.
  enough (H : P s /\ (forall x, P (x :: s)) /\ (forall x y, P (x :: y :: s)))
    by apply H.
  induction s as [|c s (IHa & IHb & IHc)]; repeat split; auto.
Qed.

Lemma sextet_lt (q k : N) : (base64.sextet q k < 64)%N.
Proof.
  unfold base64.sextet.
  change 63%N with (N.ones 6). rewrite N.land_ones.
  apply N.mod_upper_bound. discriminate.
Qed.

(** A property of the numbers below 64 can be settled by running it. *)
Lemma below_64 (P : N -> bool) :
  forallb P (map N.of_nat (seq 0 64)) = true ->
  forall i, (i < 64)%N -> P i = true.
Proof.
  intros H i Hi.
  rewrite forallb_forall in H. apply H.
  apply in_map_iff. exists (N.to_nat i). split; [apply N2Nat.id|].
  apply in_seq. lia.
Qed.

Lemma digit_translated (i : N) :
  (i < 64)%N ->
  base64.urlsafe_translation (base64.digit i) = base64url.digit i.
Proof.
  intros Hi.
  apply byte_eqb_eq.
  revert i Hi.
  apply (below_64 (fun i => Byte.eqb
                              (base64.urlsafe_translation (base64.digit i))
                                     (base64url.digit i))).
  vm_compute. reflexivity.
Qed.

Lemma digit_not_pad (i : N) :
  (i < 64)%N -> mem Byte.eqb (base64url.digit i) (b "=") = false.
Proof.
  intros Hi.
  apply negb_true_iff. revert i Hi.
  apply (below_64 (fun i => negb (mem Byte.eqb (base64url.digit i) (b "=")))).
  vm_compute. reflexivity.
Qed.

Lemma digit_urlsafe (i : N) :
  (i < 64)%N -> is_urlsafe (Byte.to_N (base64url.digit i)) = true.
Proof.
  revert i.
  apply (below_64 (fun i => is_urlsafe (Byte.to_N (base64url.digit i)))).
  vm_compute. reflexivity.
Qed.

Lemma is_urlsafe_ascii (c : N) : is_urlsafe c = true -> (c < 128)%N.
Proof.
  unfold is_urlsafe. intros H.
  repeat (apply orb_true_iff in H; destruct H as [H|H]);
    try (apply andb_true_iff in H; destruct H as [_ H]; apply N.leb_le in H);
    try (apply N.eqb_eq in H); lia.
Qed.

Lemma is_urlsafe_not_pad (c : N) : is_urlsafe c = true -> c <> 0x3D%N.
Proof.
  intros H ->. vm_compute in H. discriminate.
Qed.

(** Stripping the padding from the output of [urlsafe_b64encode] leaves
    exactly the unpadded encoding. *)
Lemma rstrip_urlsafe_b64encode (s : bytes) :
  bytes_rstrip (b "=") (base64.urlsafe_b64encode s) = base64url.encode s.
Proof.
  unfold bytes_rstrip, base64.urlsafe_b64encode.
  induction s as [| x | x y | x y z r IH] using triples_ind.
  - reflexivity.
  - cbn [base64.b64encode map]. cbv zeta.
    rewrite !digit_translated by apply sextet_lt.
    rewrite !rstrip_keep by (apply digit_not_pad, sextet_lt).
    reflexivity.
  - cbn [base64.b64encode map]. cbv zeta.
    rewrite !digit_translated by apply sextet_lt.
    rewrite !rstrip_keep by (apply digit_not_pad, sextet_lt).
    reflexivity.
  - cbn [base64.b64encode map]. cbv zeta.
    rewrite !digit_translated by apply sextet_lt.
    rewrite !rstrip_keep by (apply digit_not_pad, sextet_lt).
    rewrite IH. reflexivity.
Qed.

Lemma encode_length (s : bytes) :
  length (base64url.encode s) = base64url.encoded_length (length s).
Proof.
  unfold base64url.encoded_length.
  induction s as [| x | x y | x y z r IH] using triples_ind;
    try reflexivity.
  cbn [base64url.encode length]. cbv zeta. cbn [length]. rewrite IH.
  replace (4 * S (S (S (length r))) + 2)%nat
    with (4 * 3 + (4 * length r + 2))%nat by lia.
  rewrite (Nat.add_comm (4 * 3)), Nat.div_add by discriminate. lia.
Qed.

Lemma encode_urlsafe (s : bytes) :
  Forall (fun c => is_urlsafe c = true) (ascii_text (base64url.encode s)).
Proof.
  unfold ascii_text.
  induction s as [| x | x y | x y z r IH] using triples_ind;
    cbn [base64url.encode map]; cbv zeta;
    repeat (constructor; try (apply digit_urlsafe, sextet_lt)).
  exact IH.
Qed.

Lemma urlsafe_text_intro (s : str) :
  Forall (fun c => is_urlsafe c = true) s -> urlsafe_text s.
Proof.
  intros H. split; [exact H|].
  intros Hin. rewrite Forall_forall in H.
  now apply (is_urlsafe_not_pad (H _ Hin)).
Qed.

Lemma urlsafe_is_ascii (s : str) :
  Forall (fun c => is_urlsafe c = true) s -> is_ascii s.
Proof.
  apply Forall_impl. intros c. apply is_urlsafe_ascii.
Qed.

Lemma encode_decodes (s : bytes) :
  decode_ascii (base64url.encode s) = Ok (ascii_text (base64url.encode s)).
Proof.
  apply decode_ascii_ok.
  pose proof (encode_urlsafe s) as H. unfold ascii_text in H.
  rewrite Forall_map in H.
  revert H. apply Forall_impl. intros c. apply is_urlsafe_ascii.
Qed.

(** [_s] and [_n] decode first and strip the text afterwards; the result
    is the same unpadded encoding. *)
Lemma urlsafe_b64encode_decodes (s : bytes) :
  decode_ascii (base64.urlsafe_b64encode s)
  = Ok (ascii_text (base64.urlsafe_b64encode s)).
Proof.
  apply decode_ascii_ok.
  unfold base64.urlsafe_b64encode.
  assert (Hpad : (Byte.to_N "="%byte < 128)%N) by (vm_compute; reflexivity).
  assert (Hdig : forall i, (i < 64)%N ->
            (Byte.to_N (base64.urlsafe_translation (base64.digit i)) < 128)%N).
  { intros i Hi. rewrite digit_translated by exact Hi.
    apply is_urlsafe_ascii, digit_urlsafe, Hi. }
  induction s as [| x | x y | x y z r IH] using triples_ind;
    cbn [base64.b64encode map]; cbv zeta;
    repeat (constructor; try (apply Hdig, sextet_lt); try exact Hpad).
  exact IH.
Qed.

Lemma str_rstrip_urlsafe_b64encode (s : bytes) :
  str_rstrip (u "=") (ascii_text (base64.urlsafe_b64encode s))
  = ascii_text (base64url.encode s).
Proof.
  unfold str_rstrip, ascii_text.
  change (u "=") with (map Byte.to_N (b "=")).
  rewrite (rstrip_map Byte.eqb N.eqb Byte.to_N (b "=") _ to_N_eqb).
  f_equal. apply rstrip_urlsafe_b64encode.
Qed.

(** ** SHA-256 *)

Lemma sha256_length (msg : bytes) : length (hashlib.sha256 msg) = 32%nat.
Proof.
  reflexivity.
Qed.

(** Test vectors: RFC 4648 section 10 for base64, FIPS 180 for SHA-256
    (one-block, empty and two-block messages). *)
Example base64_rfc4648_vectors :
  map base64.b64encode
      [b ""; b "f"; b "fo"; b "foo"; b "foob"; b "fooba"; b "foobar"]
  = [b ""; b "Zg=="; b "Zm8="; b "Zm9v"; b "Zm9vYg=="; b "Zm9vYmE=";
     b "Zm9vYmFy"].
Proof.
  vm_compute. reflexivity.
Qed.

Example urlsafe_alphabet_vectors :
  base64.b64encode [xfb; xff; xbf] = b "+/+/"
  /\ base64.urlsafe_b64encode [xfb; xff; xbf] = b "-_-_".
Proof.
  split; vm_compute; reflexivity.
Qed.

Example sha256_fips180_vectors :
  map hashlib.word_of_bytes (hashlib.pieces 4 8 (hashlib.sha256 (b "abc")))
  = [ 0xBA7816BF; 0x8F01CFEA; 0x414140DE; 0x5DAE2223;
      0xB00361A3; 0x96177A9C; 0xB410FF61; 0xF20015AD ]%N
  /\ map hashlib.word_of_bytes (hashlib.pieces 4 8 (hashlib.sha256 (b "")))
     = [ 0xE3B0C442; 0x98FC1C14; 0x9AFBF4C8; 0x996FB924;
         0x27AE41E4; 0x649B934C; 0xA495991B; 0x7852B855 ]%N
  /\ map hashlib.word_of_bytes
         (hashlib.pieces 4 8
            (hashlib.sha256
               (b "abcdbcdecdefdefgefghfghighijhijkijkljklmklmnlmnomnopnopq")))
     = [ 0x248D6A61; 0xD20638B8; 0xE5C02693; 0x0C3E6039;
         0xA33CE459; 0x64FF2167; 0xF6ECEDD4; 0x19DB06C1 ]%N.
Proof.
  repeat split; vm_compute; reflexivity.
Qed.

(** The test vector of RFC 7636, appendix B. *)
Example rfc7636_appendix_B :
  S256_challenge (u "dBjftJeZ4CVP-mB92K27uhbUJU1p1r_wW1gFWFOEjXk")
  = u "E9Melhoa2OwvFrEMTJguCHaoeK1t8URWbuGJSstw-cM".
Proof.
  vm_compute. reflexivity.
Qed.

Lemma S256_challenge_unpadded (v : str) :
  S256_challenge v
  = ascii_text (base64url.encode (hashlib.sha256 (ascii_bytes v))).
Proof.
  unfold S256_challenge. now rewrite rstrip_urlsafe_b64encode.
Qed.

Lemma S256_challenge_length (v : str) : length (S256_challenge v) = 43%nat.
Proof.
  rewrite S256_challenge_unpadded. unfold ascii_text.
  rewrite length_map, encode_length, sha256_length. reflexivity.
Qed.

Lemma S256_challenge_urlsafe (v : str) :
  Forall (fun c => is_urlsafe c = true) (S256_challenge v).
Proof.
  rewrite S256_challenge_unpadded. apply encode_urlsafe.
Qed.

(** ** The entropy monad *)

Lemma bind_Ok_inv {A B} (m : M A) (k : A -> M B) (e : entropy)
    (r : B * entropy) :
  bind m k e = Ok r -> exists a e1, m e = Ok (a, e1) /\ k a e1 = Ok r.
Proof.
  unfold bind. destruct (m e) as [[a e1]|x]; [|discriminate].
  intros H. now exists a, e1.
Qed.

Lemma lift_Ok_inv {A} (r : result A) (e : entropy) (a : A) (e1 : entropy) :
  lift r e = Ok (a, e1) -> r = Ok a /\ e1 = e.
Proof.
  unfold lift. destruct r; [|discriminate].
  intros H. inversion H. auto.
Qed.

Lemma urandom_ok (n : Z) (e : entropy) :
  (0 <= n <= PY_SSIZE_T_MAX)%Z ->
  urandom n e = Ok (pool_take (Z.to_nat n) e, pool_drop (Z.to_nat n) e).
Proof.
  intros H. unfold urandom.
  destruct (Z.ltb_spec n (- PY_SSIZE_T_MAX - 1)),
    (Z.ltb_spec PY_SSIZE_T_MAX n), (Z.ltb_spec n 0);
    unfold PY_SSIZE_T_MAX in *; try lia; reflexivity.
Qed.

Lemma urandom_negative (n : Z) (e : entropy) :
  (- PY_SSIZE_T_MAX - 1 <= n < 0)%Z ->
  urandom n e = Raise (ValueError "negative argument not allowed").
Proof.
  intros H. unfold urandom.
  destruct (Z.ltb_spec n (- PY_SSIZE_T_MAX - 1)),
    (Z.ltb_spec PY_SSIZE_T_MAX n), (Z.ltb_spec n 0);
    unfold PY_SSIZE_T_MAX in *; try lia; reflexivity.
Qed.

Lemma urandom_overflow (n : Z) (e : entropy) :
  (n < - PY_SSIZE_T_MAX - 1 \/ PY_SSIZE_T_MAX < n)%Z ->
  urandom n e = Raise OverflowError.
Proof.
  intros H. unfold urandom.
  destruct (Z.ltb_spec n (- PY_SSIZE_T_MAX - 1)),
    (Z.ltb_spec PY_SSIZE_T_MAX n);
    unfold PY_SSIZE_T_MAX in *; try lia; reflexivity.
Qed.

(** ** The methods of [PKCE] *)

Section Methods.
Variable self : PKCE.

Lemma code_v_in_bounds (n : Z) (e : entropy) :
  (32 <= n <= 128)%Z ->
  _code_v self n e
  = Ok (ascii_text (base64url.encode (pool_take (Z.to_nat n) e)),
        pool_drop (Z.to_nat n) e).
Proof.
  intros [Hlo Hhi]. unfold _code_v.
  apply Z.leb_le in Hlo, Hhi. rewrite Hlo, Hhi. cbn [andb negb].
  apply Z.leb_le in Hlo.
  unfold bind. rewrite urandom_ok by (unfold PY_SSIZE_T_MAX; lia).
  now rewrite rstrip_urlsafe_b64encode, encode_decodes.
Qed.

Lemma code_v_out_of_bounds (n : Z) (e : entropy) :
  ~ (32 <= n <= 128)%Z ->
  _code_v self n e = Raise (ValueError length_message).
Proof.
  intros H. unfold _code_v.
  destruct ((32 <=? n)%Z && (n <=? 128)%Z) eqn:E; [|reflexivity].
  apply andb_true_iff in E. destruct E as [Hlo Hhi].
  apply Z.leb_le in Hlo, Hhi. lia.
Qed.

Lemma token_ok (n : Z) (e : entropy) :
  (0 <= n <= PY_SSIZE_T_MAX)%Z ->
  _s self n e
  = Ok (ascii_text (base64url.encode (pool_take (Z.to_nat n) e)),
        pool_drop (Z.to_nat n) e)
  /\ _n self n e = _s self n e.
Proof.
  intros H. split; [|reflexivity].
  unfold _s, bind. rewrite urandom_ok by exact H.
  rewrite urlsafe_b64encode_decodes. cbn [lift ret].
  now rewrite str_rstrip_urlsafe_b64encode.
Qed.

Lemma token_negative (n : Z) (e : entropy) :
  (- PY_SSIZE_T_MAX - 1 <= n < 0)%Z ->
  _s self n e = Raise (ValueError "negative argument not allowed")
  /\ _n self n e = Raise (ValueError "negative argument not allowed").
Proof.
  intros H. unfold _s, _n, bind. now rewrite urandom_negative.
Qed.

Lemma token_overflow (n : Z) (e : entropy) :
  (n < - PY_SSIZE_T_MAX - 1 \/ PY_SSIZE_T_MAX < n)%Z ->
  _s self n e = Raise OverflowError /\ _n self n e = Raise OverflowError.
Proof.
  intros H. unfold _s, _n, bind. now rewrite urandom_overflow.
Qed.

(** Whatever [_s] and [_n] return is the unpadded encoding of the bytes
    drawn. *)
Lemma token_Ok_inv (n : Z) (e : entropy) (text : str) (e' : entropy) :
  _s self n e = Ok (text, e') \/ _n self n e = Ok (text, e') ->
  (0 <= n <= PY_SSIZE_T_MAX)%Z
  /\ text = ascii_text (base64url.encode (pool_take (Z.to_nat n) e))
  /\ e' = pool_drop (Z.to_nat n) e.
Proof.
  intros H.
  assert (Hs : _s self n e = Ok (text, e')) by (destruct H as [H|H]; exact H).
  clear H.
  assert (D : (0 <= n <= PY_SSIZE_T_MAX)%Z
              \/ (- PY_SSIZE_T_MAX - 1 <= n < 0)%Z
              \/ (n < - PY_SSIZE_T_MAX - 1 \/ PY_SSIZE_T_MAX < n)%Z)
    by (unfold PY_SSIZE_T_MAX; lia).
  destruct D as [D|[D|D]].
  - split; [exact D|].
    destruct (token_ok e D) as [E _]. rewrite E in Hs.
    inversion Hs. auto.
  - destruct (token_negative e D) as [E _]. rewrite E in Hs. discriminate.
  - destruct (token_overflow e D) as [E _]. rewrite E in Hs. discriminate.
Qed.

Lemma code_c_S256 (v : str) (e : entropy) :
  code_challenge_method self = u "S256" ->
  is_ascii v ->
  _code_c self v e = Ok (S256_challenge v, e).
Proof.
  intros Hm Hv. unfold _code_c. rewrite Hm. cbn [str_eqb].
  change (str_eqb (u "S256") (u "S256")) with true. cbv iota.
  unfold bind. rewrite (encode_ascii_ok Hv). cbn [lift].
  rewrite rstrip_urlsafe_b64encode, encode_decodes.
  now rewrite S256_challenge_unpadded.
Qed.

Lemma code_c_S256_not_ascii (v : str) (e : entropy) :
  code_challenge_method self = u "S256" ->
  ~ is_ascii v ->
  _code_c self v e = Raise UnicodeEncodeError.
Proof.
  intros Hm Hv. unfold _code_c. rewrite Hm.
  change (str_eqb (u "S256") (u "S256")) with true. cbv iota.
  unfold bind. now rewrite (encode_ascii_raises Hv).
Qed.

Lemma code_c_plain (v : str) (e : entropy) :
  code_challenge_method self = u "plain" ->
  _code_c self v e = Ok (v, e).
Proof.
  intros Hm. unfold _code_c. rewrite Hm. reflexivity.
Qed.

Lemma code_c_unsupported (v : str) (e : entropy) :
  code_challenge_method self <> u "S256" ->
  code_challenge_method self <> u "plain" ->
  _code_c self v e = Raise (ValueError method_message).
Proof.
  intros H1 H2. unfold _code_c.
  now rewrite (str_eqb_neq H1), (str_eqb_neq H2).
Qed.
End Methods.

(* ================================================================== *)
(** * The challenge derivation [_code_c] *)

(** C1.  With method ["S256"], deriving the challenge of an ASCII code
    verifier [v] returns the URL-safe base64 encoding, trailing [=]
    stripped, of the SHA-256 digest of the ASCII bytes of [v]; the entropy
    pool is neither read nor changed, so calling it twice, from any two
    pools or one call after the other, yields the same output.  The output
    is also the unpadded URL-safe encoding of the digest written
    directly. *)
Theorem code_c_S256_deterministic (self : PKCE) (v : str) :
  code_challenge_method self = u "S256" ->
  is_ascii v ->
  (forall e, _code_c self v e = Ok (S256_challenge v, e))
  /\ (forall e1 e2, value (_code_c self v) e1 = value (_code_c self v) e2)
  /\ (forall e,
        value (bind (_code_c self v) (fun first =>
               bind (_code_c self v) (fun second =>
               ret (first, second)))) e
        = Ok (S256_challenge v, S256_challenge v))
  /\ S256_challenge v
     = ascii_text (base64url.encode (hashlib.sha256 (ascii_bytes v))).
Proof.
  intros Hm Hv.
  assert (H : forall e, _code_c self v e = Ok (S256_challenge v, e))
    by (intros e; now apply code_c_S256).
  repeat split.
  - exact H.
  - intros e1 e2. unfold value. now rewrite !H.
  - intros e. unfold value, bind. now rewrite !H.
  - apply S256_challenge_unpadded.
Qed.

Lemma code_c_S256_deterministic_witness :
  code_challenge_method (__init__ (u "abc") (u "https://example.com/cb")
                                  (u "openid") (u "S256")) = u "S256"
  /\ is_ascii (u "dBjftJeZ4CVP-mB92K27uhbUJU1p1r_wW1gFWFOEjXk")
  /\ _code_c (__init__ (u "abc") (u "https://example.com/cb")
                       (u "openid") (u "S256"))
             (u "dBjftJeZ4CVP-mB92K27uhbUJU1p1r_wW1gFWFOEjXk") sample_pool
     = Ok (S256_challenge (u "dBjftJeZ4CVP-mB92K27uhbUJU1p1r_wW1gFWFOEjXk"),
           sample_pool).
Proof.
  assert (Ha : is_ascii (u "dBjftJeZ4CVP-mB92K27uhbUJU1p1r_wW1gFWFOEjXk"))
    by (repeat constructor).
  split; [reflexivity | split; [exact Ha|]].
  apply (code_c_S256_deterministic
           (__init__ (u "abc") (u "https://example.com/cb")
                     (u "openid") (u "S256"))
           eq_refl Ha).
Defined.

(** C10.  With method ["S256"], the challenge of an ASCII code verifier is
    returned and is exactly 43 characters long, whatever the length of the
    verifier. *)
Theorem code_c_S256_length (self : PKCE) (v : str) (e : entropy) :
  code_challenge_method self = u "S256" ->
  is_ascii v ->
  exists challenge,
    _code_c self v e = Ok (challenge, e) /\ length challenge = 43%nat.
Proof.
  intros Hm Hv. exists (S256_challenge v). split.
  - now apply code_c_S256.
  - apply S256_challenge_length.
Qed.

Lemma code_c_S256_length_witness :
  code_challenge_method (__init__ (u "abc") (u "https://example.com/cb")
                                  (u "openid") (u "S256")) = u "S256"
  /\ is_ascii (u "a")
  /\ exists challenge,
       _code_c (__init__ (u "abc") (u "https://example.com/cb")
                         (u "openid") (u "S256")) (u "a") sample_pool
       = Ok (challenge, sample_pool)
       /\ length challenge = 43%nat.
Proof.
  assert (Ha : is_ascii (u "a")) by (repeat constructor).
  split; [reflexivity | split; [exact Ha|]].
  apply (code_c_S256_length
           (__init__ (u "abc") (u "https://example.com/cb")
                     (u "openid") (u "S256"))
           sample_pool eq_refl Ha).
Defined.

(** C6.  With a method that is neither ["S256"] nor ["plain"], deriving
    the challenge of any verifier raises the [ValueError] for an
    unsupported method and returns no value. *)
Theorem code_c_unsupported_method (self : PKCE) (v : str) (e : entropy) :
  code_challenge_method self <> u "S256" ->
  code_challenge_method self <> u "plain" ->
  _code_c self v e = Raise (ValueError method_message)
  /\ (forall r, _code_c self v e <> Ok r).
Proof.
  intros H1 H2.
  rewrite (code_c_unsupported self v e H1 H2).
  split; [reflexivity | discriminate].
Qed.

Lemma code_c_unsupported_method_witness :
  u "HS256" <> u "S256"
  /\ u "HS256" <> u "plain"
  /\ _code_c (__init__ (u "abc") (u "https://example.com/cb")
                       (u "openid") (u "HS256"))
             (u "dBjftJeZ4CVP-mB92K27uhbUJU1p1r_wW1gFWFOEjXk") sample_pool
     = Raise (ValueError method_message).
Proof.
  assert (H1 : u "HS256" <> u "S256") by discriminate.
  assert (H2 : u "HS256" <> u "plain") by discriminate.
  split; [exact H1 | split; [exact H2|]].
  apply (code_c_unsupported_method
           (__init__ (u "abc") (u "https://example.com/cb")
                     (u "openid") (u "HS256"))
           (u "dBjftJeZ4CVP-mB92K27uhbUJU1p1r_wW1gFWFOEjXk") sample_pool
           H1 H2).
Defined.

(** C7.  With method ["plain"], deriving the challenge of any verifier
    [v], ASCII or not, returns [v] itself. *)
Theorem code_c_plain_identity
    (client_id redirect_uri scope v : str) (e : entropy) :
  _code_c (__init__ client_id redirect_uri scope (u "plain")) v e
  = Ok (v, e).
Proof.
  now apply code_c_plain.
Qed.

(* ================================================================== *)
(** * The secrets: [_code_v], [_s], [_n] *)

Lemma pkce_out_of_bounds
    (client_id redirect_uri scope method : str)
    (n state_length nonce_length : Z)
    (e : entropy) :
  ~ (32 <= n <= 128)%Z ->
  pkce client_id redirect_uri scope method n state_length nonce_length e
  = Raise (ValueError length_message).
Proof.
  intros H. unfold pkce, _gen_p, bind.
  now rewrite code_v_out_of_bounds.
Qed.

(** C2.  [_code_v] raises its [ValueError] exactly when the requested
    byte length is outside [32, 128], and returns a verifier exactly when
    it is inside; [pkce] called with a code verifier length of 10, of 200,
    or of any other value outside the bound fails with that error. *)
Theorem code_v_raises_iff_out_of_bounds
    (self : PKCE) (length : Z) (e : entropy) :
  (_code_v self length e = Raise (ValueError length_message)
   <-> ~ (32 <= length <= 128)%Z)
  /\ ((exists code_verifier e', _code_v self length e = Ok (code_verifier, e'))
      <-> (32 <= length <= 128)%Z)
  /\ (forall client_id redirect_uri scope method state_length nonce_length,
        pkce client_id redirect_uri scope method 10 state_length nonce_length e
        = Raise (ValueError length_message)
        /\ pkce client_id redirect_uri scope method 200 state_length
                nonce_length e
           = Raise (ValueError length_message)
        /\ (~ (32 <= length <= 128)%Z ->
            pkce client_id redirect_uri scope method length state_length
                 nonce_length e
            = Raise (ValueError length_message))).
Proof.
  assert (Hdec : (32 <= length <= 128)%Z \/ ~ (32 <= length <= 128)%Z) by lia.
  split; [split | split; [split|]].
  - intros H Hin.
    rewrite code_v_in_bounds in H by exact Hin. discriminate.
  - apply code_v_out_of_bounds.
  - intros (cv & e' & H). destruct Hdec as [Hin|Hout]; [exact Hin|].
    rewrite code_v_out_of_bounds in H by exact Hout. discriminate.
  - intros H. rewrite code_v_in_bounds by exact H. eauto.
  - intros client_id redirect_uri scope method state_length nonce_length.
    split; [|split]; try apply pkce_out_of_bounds; lia.
Qed.

Lemma code_v_length (self : PKCE) (n : Z) (e : entropy) :
  (32 <= n <= 128)%Z ->
  exists code_verifier e',
    _code_v self n e = Ok (code_verifier, e')
    /\ length code_verifier = base64url.encoded_length (Z.to_nat n).
Proof.
  intros H. rewrite code_v_in_bounds by exact H.
  eexists. eexists. split; [reflexivity|].
  unfold ascii_text, pool_take.
  now rewrite length_map, encode_length, length_map, length_seq.
Qed.

(** Within the accepted byte lengths the verifier has between 43 and 171
    characters, and at most 128 exactly when at most 96 bytes are drawn. *)
Lemma encoded_length_bounds (n : nat) :
  (32 <= n <= 128)%nat ->
  (43 <= base64url.encoded_length n <= 171)%nat
  /\ (base64url.encoded_length n <= 128 <-> n <= 96)%nat.
Proof.
  intros H. unfold base64url.encoded_length.
  pose proof (Nat.div_mod_eq (4 * n + 2) 3) as E.
  pose proof (Nat.mod_upper_bound (4 * n + 2) 3 ltac:(discriminate)) as B.
  lia.
Qed.

(** C4 (the code departs from it).  A requested length of 128 passes the
    validation of [_code_v], and the code verifier returned has 171
    characters, outside [43, 128]. *)
Theorem code_v_128_has_171_characters (self : PKCE) (e : entropy) :
  exists code_verifier e',
    _code_v self 128 e = Ok (code_verifier, e')
    /\ length code_verifier = 171%nat
    /\ ~ (43 <= length code_verifier <= 128)%nat.
Proof.
  destruct (@code_v_length self 128 e ltac:(lia)) as (cv & e' & H & Hlen).
  exists cv, e'. split; [exact H|].
  change (base64url.encoded_length (Z.to_nat 128)) with 171%nat in Hlen.
  split; [exact Hlen | lia].
Qed.

(** C8.  The secrets are text over the URL-safe base64 alphabet with no
    [=].  For every byte length in [32, 128] the code verifier, and for
    every byte length from 0 to 128 the state and the nonce, are returned
    and are such text; and for every byte length whatever, every text that
    [_code_v], [_s] or [_n] returns is such text. *)
Theorem secrets_are_urlsafe_text (self : PKCE) (length : Z) (e : entropy) :
  ((32 <= length <= 128)%Z ->
   exists code_verifier e',
     _code_v self length e = Ok (code_verifier, e')
     /\ urlsafe_text code_verifier)
  /\ ((0 <= length <= 128)%Z ->
      exists state e', _s self length e = Ok (state, e') /\ urlsafe_text state)
  /\ ((0 <= length <= 128)%Z ->
      exists nonce e', _n self length e = Ok (nonce, e') /\ urlsafe_text nonce)
  /\ (forall text e',
        _code_v self length e = Ok (text, e')
        \/ _s self length e = Ok (text, e')
        \/ _n self length e = Ok (text, e') ->
        urlsafe_text text).
Proof.
  split; [|split; [|split]].
  - intros H. rewrite code_v_in_bounds by exact H.
    eexists. eexists. split; [reflexivity|].
    apply urlsafe_text_intro, encode_urlsafe.
  - intros H.
    destruct (@token_ok self length e ltac:(unfold PY_SSIZE_T_MAX; lia))
      as [Hs _].
    rewrite Hs. eexists. eexists. split; [reflexivity|].
    apply urlsafe_text_intro, encode_urlsafe.
  - intros H.
    destruct (@token_ok self length e ltac:(unfold PY_SSIZE_T_MAX; lia))
      as [Hs Hn].
    rewrite Hn, Hs. eexists. eexists. split; [reflexivity|].
    apply urlsafe_text_intro, encode_urlsafe.
  - intros text e' [H|H].
    + assert (D : (32 <= length <= 128)%Z \/ ~ (32 <= length <= 128)%Z)
        by lia.
      destruct D as [D|D].
      * rewrite code_v_in_bounds in H by exact D.
        assert (E : text = ascii_text (base64url.encode
                             (pool_take (Z.to_nat length) e)))
          by congruence.
        rewrite E. apply urlsafe_text_intro, encode_urlsafe.
      * rewrite code_v_out_of_bounds in H by exact D. discriminate.
    + destruct (token_Ok_inv self length e H) as (_ & -> & _).
      apply urlsafe_text_intro, encode_urlsafe.
Qed.

Lemma secrets_are_urlsafe_text_witness :
  (32 <= 32 <= 128)%Z /\ (0 <= 16 <= 128)%Z
  /\ (exists code_verifier e',
        _code_v (__init__ (u "abc") (u "https://example.com/cb")
                          (u "openid") (u "S256")) 32 sample_pool
        = Ok (code_verifier, e')
        /\ urlsafe_text code_verifier)
  /\ (exists state e',
        _s (__init__ (u "abc") (u "https://example.com/cb")
                     (u "openid") (u "S256")) 16 sample_pool
        = Ok (state, e')
        /\ urlsafe_text state).
Proof.
  assert (H32 : (32 <= 32 <= 128)%Z) by (split; discriminate).
  assert (H16 : (0 <= 16 <= 128)%Z) by (split; discriminate).
  split; [exact H32 | split; [exact H16 | split]].
  - exact (proj1 (secrets_are_urlsafe_text
                    (__init__ (u "abc") (u "https://example.com/cb")
                              (u "openid") (u "S256")) 32 sample_pool) H32).
  - exact (proj1 (proj2 (secrets_are_urlsafe_text
                    (__init__ (u "abc") (u "https://example.com/cb")
                              (u "openid") (u "S256")) 16 sample_pool)) H16).
Defined.

(* ================================================================== *)
(** * [urllib.parse.quote_plus] is form encoding *)

(** ** Byte by byte *)

Lemma quoter_is_encode_byte (c : byte) :
  c <> " "%byte -> urllib.quoter [] c = form.encode_byte c.
Proof.
  destruct c; intros H; try reflexivity.
  now contradiction H.
Qed.

Lemma quoter_space_then_replace (c : byte) :
  replace_char 0x20 (u "+")
    (urllib.quoter (urllib.encode_ascii_ignore ([] ++ u " ")) c)
  = form.encode_byte c.
Proof.
  destruct c; reflexivity.
Qed.

Lemma always_safe_is_unreserved (c : byte) :
  mem Byte.eqb c (urllib.always_safe ++ urllib.encode_ascii_ignore []) = true ->
  (Byte.to_N c < 128)%N /\ form.encode_byte c = [Byte.to_N c].
Proof.
  destruct c; intros H; vm_compute in H; try discriminate H;
    split; reflexivity.
Qed.

Lemma always_safe_or_space (c : byte) :
  mem Byte.eqb c
      (urllib.always_safe ++ urllib.encode_ascii_ignore ([] ++ u " ")) = true ->
  (Byte.to_N c < 128)%N
  /\ form.encode_byte c = replace_char 0x20 (u "+") [Byte.to_N c].
Proof.
  destruct c; intros H; vm_compute in H; try discriminate H;
    split; reflexivity.
Qed.

Lemma Ok_inj {A} (x y : A) : Ok x = Ok y -> x = y.
Proof.
  congruence.
Qed.

(** ** UTF-8 never produces a space byte from another character *)

Lemma high_byte_not_space (n : N) :
  (128 <= n < 256)%N -> byte_of_N n <> " "%byte.
Proof.
  intros H E.
  assert (E' : Byte.to_N (byte_of_N n) = 32%N) by now rewrite E.
  rewrite to_N_byte_of_N, N.mod_small in E' by lia. lia.
Qed.

Lemma land_63_lt (n : N) : (N.land n 0x3F < 64)%N.
Proof.
  change 0x3F%N with (N.ones 6). rewrite N.land_ones.
  apply N.mod_upper_bound. discriminate.
Qed.

Lemma shiftr_lt (c k m : N) :
  (c < 2 ^ k * m)%N -> (N.shiftr c k < m)%N.
Proof.
  intros H. rewrite N.shiftr_div_pow2.
  apply N.Div0.div_lt_upper_bound. exact H.
Qed.

Lemma encode_utf8_char_no_space (c : N) (h : bytes) :
  c <> 0x20%N ->
  urllib.encode_utf8_char c = Ok h ->
  Forall (fun x => x <> " "%byte) h.
Proof.
  intros Hc. unfold urllib.encode_utf8_char.
  destruct (c <? 0x80)%N eqn:E1.
  { intros H; apply Ok_inj in H; subst. constructor; [|constructor].
    apply N.ltb_lt in E1. intros E.
    assert (E' : Byte.to_N (byte_of_N c) = 32%N) by now rewrite E.
    rewrite to_N_byte_of_N, N.mod_small in E' by lia. contradiction. }
  apply N.ltb_ge in E1.
  destruct (c <? 0x800)%N eqn:E2.
  { apply N.ltb_lt in E2. intros H; apply Ok_inj in H; subst.
    pose proof (land_63_lt c).
    pose proof (@shiftr_lt c 6 32 E2).
    repeat (apply Forall_cons; [apply high_byte_not_space; lia|]).
    apply Forall_nil. }
  destruct (c <? 0x10000)%N eqn:E3.
  { apply N.ltb_lt in E3.
    destruct ((0xD800 <=? c)%N && (c <=? 0xDFFF)%N); [discriminate|].
    intros H; apply Ok_inj in H; subst.
    pose proof (land_63_lt c).
    pose proof (land_63_lt (N.shiftr c 6)).
    pose proof (@shiftr_lt c 12 16 E3).
    repeat (apply Forall_cons; [apply high_byte_not_space; lia|]).
    apply Forall_nil. }
  destruct (c <? 0x110000)%N eqn:E4; [|discriminate].
  apply N.ltb_lt in E4. intros H; apply Ok_inj in H; subst.
  pose proof (land_63_lt c).
  pose proof (land_63_lt (N.shiftr c 6)).
  pose proof (land_63_lt (N.shiftr c 12)).
  assert (E4' : (c < 2 ^ 18 * 5)%N)
    by (change (2 ^ 18 * 5)%N with 1310720%N; lia).
  pose proof (@shiftr_lt c 18 5 E4').
  repeat (apply Forall_cons; [apply high_byte_not_space; lia|]).
  apply Forall_nil.
Qed.

Lemma encode_utf8_no_space (s : str) (bs : bytes) :
  mem N.eqb 0x20%N s = false ->
  urllib.encode_utf8 s = Ok bs ->
  Forall (fun x => x <> " "%byte) bs.
Proof.
  revert bs. induction s as [|c s IH]; intros bs Hs; simpl.
  - intros H; apply Ok_inj in H; subst. constructor.
  - unfold mem in Hs. simpl in Hs. apply orb_false_iff in Hs.
    destruct Hs as [Hc Hs].
    destruct (urllib.encode_utf8_char c) as [h|] eqn:Eh; [|discriminate].
    destruct (urllib.encode_utf8 s) as [t|] eqn:Et; [|discriminate].
    cbn [rbind]. intros H; apply Ok_inj in H; subst.
    apply Forall_app. split.
    + apply encode_utf8_char_no_space with (c := c); [|exact Eh].
      intros ->. discriminate.
    + now apply IH.
Qed.

(** ** The three paths of [quote_from_bytes] *)

Lemma flat_map_ext_Forall {A B} (f g : A -> list B) (P : A -> Prop)
    (l : list A) :
  (forall x, P x -> f x = g x) -> Forall P l -> flat_map f l = flat_map g l.
Proof.
  intros H. induction 1 as [|x l Hx _ IH]; simpl; [reflexivity|].
  now rewrite H, IH.
Qed.

Lemma replace_char_flat_map {A} (f : A -> str) (old : N) (new : str)
    (l : list A) :
  replace_char old new (flat_map f l)
  = flat_map (fun x => replace_char old new (f x)) l.
Proof.
  unfold replace_char. induction l as [|x l IH]; simpl; [reflexivity|].
  now rewrite flat_map_app, IH.
Qed.

Lemma replace_char_cons (old : N) (new : str) (c : N) (s : str) :
  replace_char old new (c :: s)
  = replace_char old new [c] ++ replace_char old new s.
Proof.
  unfold replace_char. simpl. now rewrite app_nil_r.
Qed.

Lemma quote_from_bytes_no_space (bs : bytes) :
  Forall (fun x => x <> " "%byte) bs ->
  urllib.quote_from_bytes bs [] = Ok (flat_map form.encode_byte bs).
Proof.
  intros Hbs. unfold urllib.quote_from_bytes.
  destruct bs as [|c0 bs0]; [reflexivity|].
  set (bs := c0 :: bs0) in *.
  destruct (bytes_rstrip _ bs) eqn:E.
  - apply rstrip_nil_inv in E.
    rewrite decode_ascii_ok.
    + f_equal. unfold ascii_text.
      clear Hbs. induction E as [|x l Hx _ IH]; simpl; [reflexivity|].
      destruct (always_safe_is_unreserved x Hx) as [_ ->]. now rewrite IH.
    + revert E. apply Forall_impl. intros x Hx.
      now destruct (always_safe_is_unreserved x Hx).
  - f_equal. apply flat_map_ext_Forall with (P := fun x => x <> " "%byte).
    + intros x. apply quoter_is_encode_byte.
    + exact Hbs.
Qed.

Lemma quote_from_bytes_space (bs : bytes) :
  rbind (urllib.quote_from_bytes bs ([] ++ u " "))
        (fun quoted => Ok (replace_char 0x20 (u "+") quoted))
  = Ok (flat_map form.encode_byte bs).
Proof.
  unfold urllib.quote_from_bytes.
  destruct bs as [|c0 bs0]; [reflexivity|].
  set (bs := c0 :: bs0) in *.
  destruct (bytes_rstrip _ bs) eqn:E.
  - apply rstrip_nil_inv in E.
    rewrite decode_ascii_ok.
    + cbn [rbind]. f_equal. unfold ascii_text.
      induction E as [|x l Hx _ IH]; [reflexivity|].
      cbn [map flat_map].
      destruct (always_safe_or_space x Hx) as [_ ->].
      now rewrite replace_char_cons, IH.
    + revert E. apply Forall_impl. intros x Hx.
      now destruct (always_safe_or_space x Hx).
  - cbn [rbind]. f_equal. rewrite replace_char_flat_map.
    apply flat_map_ext. intros x. apply quoter_space_then_replace.
Qed.

(** ** [quote_plus] *)

Theorem quote_plus_is_form_encoding (s : str) :
  urllib.quote_plus s [] = form.encode_value s.
Proof.
  unfold urllib.quote_plus, form.encode_value, urllib.quote.
  destruct (mem N.eqb 0x20%N s) eqn:Hsp; cbn [negb].
  - destruct s as [|c s']; [discriminate Hsp|].
    set (s := c :: s') in *.
    destruct (urllib.encode_utf8 s) as [bs|x]; [|reflexivity].
    cbn [rbind]. apply quote_from_bytes_space.
  - destruct s as [|c s']; [reflexivity|].
    set (s := c :: s') in *.
    destruct (urllib.encode_utf8 s) as [bs|x] eqn:E; [|reflexivity].
    cbn [rbind]. apply quote_from_bytes_no_space.
    now apply encode_utf8_no_space with (s := s).
Qed.

Lemma urlencode_is_form_serialization (fields : list (str * str)) :
  urllib.urlencode fields = form.serialize fields.
Proof.
  unfold urllib.urlencode, form.serialize.
  assert (H : urllib.urlencode_items fields = form.encode_fields fields).
  { induction fields as [|[k v] rest IH]; simpl; [reflexivity|].
    now rewrite !quote_plus_is_form_encoding, IH. }
  now rewrite H.
Qed.

(* ================================================================== *)
(** * Form encoding of the generated values *)

Lemma not_In_mem (c : N) (s : str) : mem N.eqb c s = false -> ~ In c s.
Proof.
  unfold mem. intros H Hin.
  assert (E : existsb (N.eqb c) s = true).
  { apply existsb_exists. exists c. split; [exact Hin | apply N.eqb_refl]. }
  congruence.
Qed.

Lemma encode_utf8_ascii (s : str) :
  is_ascii s -> urllib.encode_utf8 s = Ok (ascii_bytes s).
Proof.
  induction 1 as [|c s Hc _ IH]; simpl; [reflexivity|].
  unfold urllib.encode_utf8_char.
  apply N.ltb_lt in Hc. rewrite Hc. cbn [rbind]. now rewrite IH.
Qed.

Lemma encode_byte_urlsafe (x : byte) :
  is_urlsafe (Byte.to_N x) = true -> form.encode_byte x = [Byte.to_N x].
Proof.
  destruct x; intros H; vm_compute in H; try discriminate H; reflexivity.
Qed.

(** Text over the URL-safe alphabet is its own form encoding. *)
Lemma encode_value_urlsafe (s : str) :
  Forall (fun c => is_urlsafe c = true) s -> form.encode_value s = Ok s.
Proof.
  intros Hs. unfold form.encode_value.
  rewrite encode_utf8_ascii by now apply urlsafe_is_ascii.
  cbn [rbind]. f_equal. unfold ascii_bytes.
  induction Hs as [|c s Hc _ IH]; [reflexivity|].
  cbn [map flat_map]. rewrite IH.
  assert (E : Byte.to_N (byte_of_N c) = c).
  { rewrite to_N_byte_of_N. apply N.mod_small.
    apply is_urlsafe_ascii in Hc. lia. }
  rewrite encode_byte_urlsafe by now rewrite E.
  now rewrite E.
Qed.

Lemma encode_byte_no_separator (x : byte) :
  mem N.eqb 0x26%N (form.encode_byte x) = false
  /\ mem N.eqb 0x3D%N (form.encode_byte x) = false.
Proof.
  destruct x; split; reflexivity.
Qed.

(** An encoded value contains neither [&] nor [=]. *)
Lemma encode_value_no_separator (s q : str) :
  form.encode_value s = Ok q -> ~ In 0x26%N q /\ ~ In 0x3D%N q.
Proof.
  unfold form.encode_value.
  destruct (urllib.encode_utf8 s) as [bs|]; [|discriminate].
  cbn [rbind]. intros H. apply Ok_inj in H. subst q.
  split; intros Hin; apply in_flat_map in Hin; destruct Hin as (x & _ & Hx);
    destruct (encode_byte_no_separator x) as [Ha He];
    [apply (not_In_mem _ _ Ha) | apply (not_In_mem _ _ He)]; exact Hx.
Qed.

(** ** Reading a serialized payload back *)

Lemma split_on_clean (sep : N) (a : str) :
  ~ In sep a -> form.split_on sep a = [a].
Proof.
  induction a as [|c a IH]; intros H; simpl; [reflexivity|].
  destruct (N.eqb_spec c sep) as [->|_].
  - exfalso. apply H. now left.
  - rewrite IH; [reflexivity|]. intros Hin. apply H. now right.
Qed.

Lemma split_on_app (sep : N) (a r : str) :
  ~ In sep a ->
  form.split_on sep (a ++ sep :: r) = a :: form.split_on sep r.
Proof.
  induction a as [|c a IH]; intros H; simpl.
  - now rewrite N.eqb_refl.
  - destruct (N.eqb_spec c sep) as [->|_].
    + exfalso. apply H. now left.
    + rewrite IH; [reflexivity|]. intros Hin. apply H. now right.
Qed.

Lemma cut_at_app (sep : N) (a r : str) :
  ~ In sep a -> form.cut_at sep (a ++ sep :: r) = (a, r).
Proof.
  induction a as [|c a IH]; intros H; simpl.
  - now rewrite N.eqb_refl.
  - destruct (N.eqb_spec c sep) as [->|_].
    + exfalso. apply H. now left.
    + rewrite IH; [reflexivity|]. intros Hin. apply H. now right.
Qed.

(** Cutting the joined [name=value] pieces apart gives the pairs back,
    provided no name or value contains [&] and no name contains [=]. *)
Lemma split_join_pairs (kvs : list (str * str)) :
  kvs <> [] ->
  Forall (fun kv => ~ In 0x26%N (fst kv) /\ ~ In 0x3D%N (fst kv)
                    /\ ~ In 0x26%N (snd kv)) kvs ->
  map (form.cut_at 0x3D)
      (form.split_on 0x26
         (join [0x26%N] (map (fun kv => fst kv ++ [0x3D%N] ++ snd kv) kvs)))
  = kvs.
Proof.
  intros Hne H. induction H as [|[k v] rest (Hk & Hk' & Hv) Hrest IH];
    [contradiction|].
  assert (Hpiece : ~ In 0x26%N (k ++ [0x3D%N] ++ v)).
  { cbn [fst snd] in *. intros Hin. apply in_app_or in Hin.
    destruct Hin as [Hin|[Hin|Hin]]; [auto | discriminate | auto]. }
  destruct rest as [|kv2 rest'].
  - cbn [map join fst snd] in *.
    rewrite split_on_clean by exact Hpiece.
    cbn [map app]. now rewrite cut_at_app.
  - cbn [fst snd] in *.
    change (join [0x26%N] (map (fun kv => fst kv ++ [0x3D%N] ++ snd kv)
                               ((k, v) :: kv2 :: rest')))
      with ((k ++ [0x3D%N] ++ v) ++ 0x26%N ::
            join [0x26%N] (map (fun kv => fst kv ++ [0x3D%N] ++ snd kv)
                               (kv2 :: rest'))).
    rewrite split_on_app by exact Hpiece.
    rewrite map_cons, IH by discriminate.
    change (k ++ [0x3D%N] ++ v) with (k ++ 0x3D%N :: v).
    now rewrite cut_at_app.
Qed.

(* ================================================================== *)
(** * Runs of [_gen_p] and [pkce] *)

Lemma code_c_pool (self : PKCE) (v cc : str) (e e1 : entropy) :
  _code_c self v e = Ok (cc, e1) ->
  e1 = e
  /\ (code_challenge_method self = u "S256"
      \/ code_challenge_method self = u "plain").
Proof.
  unfold _code_c.
  destruct (str_eqb (code_challenge_method self) (u "S256")) eqn:E1.
  - apply str_eqb_eq in E1. unfold bind, lift.
    destruct (encode_ascii v); [|discriminate].
    destruct (decode_ascii _); [|discriminate].
    intros H. apply Ok_inj in H. inversion H. auto.
  - destruct (str_eqb (code_challenge_method self) (u "plain")) eqn:E2.
    + apply str_eqb_eq in E2. unfold ret.
      intros H. apply Ok_inj in H. inversion H. auto.
    + discriminate.
Qed.

Lemma code_c_supported (self : PKCE) (v : str) (e : entropy) :
  code_challenge_method self = u "S256"
  \/ code_challenge_method self = u "plain" ->
  is_ascii v ->
  _code_c self v e = Ok (challenge_of (code_challenge_method self) v, e).
Proof.
  intros [Hm|Hm] Hv.
  - rewrite (code_c_S256 self e Hm Hv), Hm. reflexivity.
  - rewrite (code_c_plain self v e Hm), Hm. reflexivity.
Qed.

Lemma challenge_of_urlsafe (method v : str) :
  Forall (fun c => is_urlsafe c = true) v ->
  Forall (fun c => is_urlsafe c = true) (challenge_of method v).
Proof.
  intros Hv. unfold challenge_of.
  destruct (str_eqb method (u "S256"));
    [apply S256_challenge_urlsafe | exact Hv].
Qed.

(** The secret drawn from [n] bytes of the pool. *)
Lemma secret_urlsafe (n : nat) (e : entropy) :
  Forall (fun c => is_urlsafe c = true)
         (ascii_text (base64url.encode (pool_take n e))).
Proof.
  apply encode_urlsafe.
Qed.

Lemma serialize_data (self : PKCE) (cc state nonce : str) :
  Forall (fun c => is_urlsafe c = true) cc ->
  Forall (fun c => is_urlsafe c = true) state ->
  Forall (fun c => is_urlsafe c = true) nonce ->
  code_challenge_method self = u "S256"
  \/ code_challenge_method self = u "plain" ->
  form.serialize (data self cc state nonce)
  = rbind (form.encode_value (client_id self)) (fun q1 =>
    rbind (form.encode_value (scope self)) (fun q2 =>
    rbind (form.encode_value (redirect_uri self)) (fun q3 =>
    Ok (payload_text q1 q2 q3 cc (code_challenge_method self) state nonce)))).
Proof.
  intros Hcc Hst Hno Hm.
  assert (Em : form.encode_value (code_challenge_method self)
               = Ok (code_challenge_method self))
    by (destruct Hm as [-> | ->]; reflexivity).
  unfold form.serialize, data. cbn [form.encode_fields].
  change (form.encode_value (u "client_id")) with (Ok (u "client_id")).
  change (form.encode_value (u "scope")) with (Ok (u "scope")).
  change (form.encode_value (u "redirect_uri")) with (Ok (u "redirect_uri")).
  change (form.encode_value (u "code_challenge"))
    with (Ok (u "code_challenge")).
  change (form.encode_value (u "code_challenge_method"))
    with (Ok (u "code_challenge_method")).
  change (form.encode_value (u "state")) with (Ok (u "state")).
  change (form.encode_value (u "nonce")) with (Ok (u "nonce")).
  rewrite (encode_value_urlsafe Hcc), (encode_value_urlsafe Hst),
    (encode_value_urlsafe Hno), Em.
  destruct (form.encode_value (client_id self)) as [q1|]; [|reflexivity].
  destruct (form.encode_value (scope self)) as [q2|]; [|reflexivity].
  destruct (form.encode_value (redirect_uri self)) as [q3|]; [|reflexivity].
  cbn [rbind join]. unfold payload_text.
  rewrite <- !app_assoc. reflexivity.
Qed.

Section Run.
Variables (self : PKCE) (cvl sl nl : Z) (e : entropy).

(** The values a run produces, and the pool it leaves. *)
Let e1 := pool_drop (Z.to_nat cvl) e.
Let e2 := pool_drop (Z.to_nat sl) e1.
Let e3 := pool_drop (Z.to_nat nl) e2.
Let cv := ascii_text (base64url.encode (pool_take (Z.to_nat cvl) e)).
Let cc := challenge_of (code_challenge_method self) cv.
Let state := ascii_text (base64url.encode (pool_take (Z.to_nat sl) e1)).
Let nonce := ascii_text (base64url.encode (pool_take (Z.to_nat nl) e2)).

Lemma gen_p_run :
  (32 <= cvl <= 128)%Z ->
  code_challenge_method self = u "S256"
  \/ code_challenge_method self = u "plain" ->
  (0 <= sl <= PY_SSIZE_T_MAX)%Z -> (0 <= nl <= PY_SSIZE_T_MAX)%Z ->
  _gen_p self cvl sl nl e
  = rbind (form.encode_value (client_id self)) (fun q1 =>
    rbind (form.encode_value (scope self)) (fun q2 =>
    rbind (form.encode_value (redirect_uri self)) (fun q3 =>
    Ok (payload_text q1 q2 q3 cc (code_challenge_method self) state nonce,
        cv, e3)))).
Proof.
  intros Hcv Hm Hs Hn.
  unfold _gen_p, bind.
  rewrite code_v_in_bounds by exact Hcv. fold cv e1.
  rewrite code_c_supported
    by (try exact Hm; apply urlsafe_is_ascii, secret_urlsafe).
  fold cc.
  destruct (token_ok self e1 Hs) as [-> _]. fold state e2.
  destruct (token_ok self e2 Hn) as [Hs' ->]. rewrite Hs'. fold nonce e3.
  rewrite urlencode_is_form_serialization.
  rewrite serialize_data;
    try exact Hm; try apply challenge_of_urlsafe; try apply secret_urlsafe.
  destruct (form.encode_value (client_id self)) as [q1|]; [|reflexivity].
  destruct (form.encode_value (scope self)) as [q2|]; [|reflexivity].
  destruct (form.encode_value (redirect_uri self)) as [q3|]; reflexivity.
Qed.

(** The failures of [_gen_p] before the payload is encoded.  A
    [ValueError] is raised by [_code_v], by [_code_c], or by [os.urandom]
    for a negative size; [OverflowError] by [os.urandom] for a size that
    does not fit. *)
Lemma gen_p_rejects :
  ~ (32 <= cvl <= 128)%Z
  \/ (code_challenge_method self <> u "S256"
      /\ code_challenge_method self <> u "plain")
  \/ (- PY_SSIZE_T_MAX - 1 <= sl < 0)%Z
  \/ ((0 <= sl <= PY_SSIZE_T_MAX)%Z /\ (- PY_SSIZE_T_MAX - 1 <= nl < 0)%Z) ->
  exists msg,
    _gen_p self cvl sl nl e = Raise (ValueError msg)
    /\ (msg = length_message \/ msg = method_message
        \/ msg = "negative argument not allowed"%string).
Proof.
  intros H. unfold _gen_p, bind.
  assert (Hb : (32 <= cvl <= 128)%Z \/ ~ (32 <= cvl <= 128)%Z) by lia.
  destruct Hb as [Hb|Hb];
    [|rewrite code_v_out_of_bounds by exact Hb; eauto].
  rewrite code_v_in_bounds by exact Hb. fold cv e1.
  destruct (str_eqb (code_challenge_method self) (u "S256")) eqn:E1;
    [apply str_eqb_eq in E1|
     destruct (str_eqb (code_challenge_method self) (u "plain")) eqn:E2;
     [apply str_eqb_eq in E2|]].
  3: { unfold _code_c. rewrite E1, E2. unfold raise.
       exists method_message. auto. }
  all: rewrite code_c_supported
         by (auto; apply urlsafe_is_ascii, secret_urlsafe).
  all: destruct H as [H|[[H1 H2]|[H|[Hsl Hnl]]]];
         [contradiction | congruence | |].
  all: try (destruct (token_negative self e1 H) as [-> _]; eauto).
  all: destruct (token_ok self e1 Hsl) as [-> _].
  all: destruct (token_negative self (pool_drop (Z.to_nat sl) e1) Hnl)
         as [_ ->]; eauto.
Qed.

Lemma gen_p_overflow :
  (32 <= cvl <= 128)%Z ->
  code_challenge_method self = u "S256"
  \/ code_challenge_method self = u "plain" ->
  (sl < - PY_SSIZE_T_MAX - 1 \/ PY_SSIZE_T_MAX < sl)%Z
  \/ ((0 <= sl <= PY_SSIZE_T_MAX)%Z
      /\ (nl < - PY_SSIZE_T_MAX - 1 \/ PY_SSIZE_T_MAX < nl)%Z) ->
  _gen_p self cvl sl nl e = Raise OverflowError.
Proof.
  intros Hb Hm H. unfold _gen_p, bind.
  rewrite code_v_in_bounds by exact Hb. fold cv e1.
  rewrite code_c_supported
    by (try exact Hm; apply urlsafe_is_ascii, secret_urlsafe).
  destruct H as [H|[Hsl Hnl]].
  - now destruct (token_overflow self e1 H) as [-> _].
  - destruct (token_ok self e1 Hsl) as [-> _].
    now destruct (token_overflow self (pool_drop (Z.to_nat sl) e1) Hnl)
      as [_ ->].
Qed.
End Run.

Lemma gen_p_Ok_inv (self : PKCE) (cvl sl nl : Z) (e : entropy)
    (r : str * str * entropy) :
  _gen_p self cvl sl nl e = Ok r ->
  (32 <= cvl <= 128)%Z
  /\ (code_challenge_method self = u "S256"
      \/ code_challenge_method self = u "plain")
  /\ (0 <= sl <= PY_SSIZE_T_MAX)%Z /\ (0 <= nl <= PY_SSIZE_T_MAX)%Z.
Proof.
  intros H.
  assert (Hrej : ~ (~ (32 <= cvl <= 128)%Z
                    \/ (code_challenge_method self <> u "S256"
                        /\ code_challenge_method self <> u "plain")
                    \/ (- PY_SSIZE_T_MAX - 1 <= sl < 0)%Z
                    \/ ((0 <= sl <= PY_SSIZE_T_MAX)%Z
                        /\ (- PY_SSIZE_T_MAX - 1 <= nl < 0)%Z))).
  { intros Hbad. destruct (gen_p_rejects self e Hbad) as (msg & E & _).
    rewrite E in H. discriminate. }
  assert (Hcv : (32 <= cvl <= 128)%Z) by lia.
  assert (Hm : code_challenge_method self = u "S256"
               \/ code_challenge_method self = u "plain").
  { destruct (str_eqb (code_challenge_method self) (u "S256")) eqn:E1;
      [left; now apply str_eqb_eq|].
    destruct (str_eqb (code_challenge_method self) (u "plain")) eqn:E2;
      [right; now apply str_eqb_eq|].
    exfalso. apply Hrej. right. left.
    split; intros E; apply str_eqb_eq in E; congruence. }
  assert (Hov : ~ ((sl < - PY_SSIZE_T_MAX - 1 \/ PY_SSIZE_T_MAX < sl)%Z
                   \/ ((0 <= sl <= PY_SSIZE_T_MAX)%Z
                       /\ (nl < - PY_SSIZE_T_MAX - 1
                           \/ PY_SSIZE_T_MAX < nl)%Z))).
  { intros Hbad. rewrite (gen_p_overflow self e Hcv Hm Hbad) in H.
    discriminate. }
  split; [exact Hcv|]. split; [exact Hm|].
  unfold PY_SSIZE_T_MAX in *. lia.
Qed.

(** A successful run, taken apart. *)
Lemma gen_p_Ok_run (self : PKCE) (cvl sl nl : Z) (e : entropy)
    (payload cv : str) (e' : entropy) :
  _gen_p self cvl sl nl e = Ok (payload, cv, e') ->
  let e1 := pool_drop (Z.to_nat cvl) e in
  let e2 := pool_drop (Z.to_nat sl) e1 in
  let cc := challenge_of (code_challenge_method self) cv in
  let state := ascii_text (base64url.encode (pool_take (Z.to_nat sl) e1)) in
  let nonce := ascii_text (base64url.encode (pool_take (Z.to_nat nl) e2)) in
  cv = ascii_text (base64url.encode (pool_take (Z.to_nat cvl) e))
  /\ e' = pool_drop (Z.to_nat nl) e2
  /\ _code_v self cvl e = Ok (cv, e1)
  /\ (forall e0, _code_c self cv e0 = Ok (cc, e0))
  /\ _s self sl e1 = Ok (state, e2)
  /\ _n self nl e2 = Ok (nonce, e')
  /\ exists q1 q2 q3,
       form.encode_value (client_id self) = Ok q1
       /\ form.encode_value (scope self) = Ok q2
       /\ form.encode_value (redirect_uri self) = Ok q3
       /\ payload
          = payload_text q1 q2 q3 cc (code_challenge_method self) state nonce.
Proof.
  intros H.
  destruct (gen_p_Ok_inv _ _ _ _ _ H) as (Hcv & Hm & Hs & Hn).
  rewrite (gen_p_run self e Hcv Hm Hs Hn) in H.
  destruct (form.encode_value (client_id self)) as [q1|]; [|discriminate].
  destruct (form.encode_value (scope self)) as [q2|]; [|discriminate].
  destruct (form.encode_value (redirect_uri self)) as [q3|]; [|discriminate].
  cbn [rbind] in H. apply Ok_inj in H.
  assert (Ecv : cv = ascii_text (base64url.encode (pool_take (Z.to_nat cvl) e)))
    by congruence.
  assert (Ee : e' = pool_drop (Z.to_nat nl)
                      (pool_drop (Z.to_nat sl) (pool_drop (Z.to_nat cvl) e)))
    by congruence.
  assert (Ep : payload
               = payload_text q1 q2 q3
                   (challenge_of (code_challenge_method self) cv)
                   (code_challenge_method self)
                   (ascii_text (base64url.encode
                      (pool_take (Z.to_nat sl) (pool_drop (Z.to_nat cvl) e))))
                   (ascii_text (base64url.encode
                      (pool_take (Z.to_nat nl)
                         (pool_drop (Z.to_nat sl)
                            (pool_drop (Z.to_nat cvl) e))))))
    by (rewrite Ecv; congruence).
  clear H. cbv zeta.
  split; [exact Ecv|]. split; [exact Ee|].
  split; [rewrite Ecv; now apply code_v_in_bounds|].
  split.
  { intros e0. apply code_c_supported; [exact Hm|].
    rewrite Ecv. apply urlsafe_is_ascii, secret_urlsafe. }
  split; [now destruct (token_ok self (pool_drop (Z.to_nat cvl) e) Hs)|].
  split.
  { destruct (token_ok self (pool_drop (Z.to_nat sl)
                              (pool_drop (Z.to_nat cvl) e)) Hn) as [E1 E2].
    now rewrite E2, E1, Ee. }
  exists q1, q2, q3. auto.
Qed.

(* ================================================================== *)
(** * The entry point [pkce] *)

(** The run of [pkce] on the sample pool with the default lengths. *)
Lemma sample_run :
  pkce (u "abc") (u "https://example.com/cb") (u "openid profile") (u "S256")
       32 16 16 sample_pool
  = Ok (sample_payload, sample_verifier,
        pool_drop 16 (pool_drop 16 (pool_drop 32 sample_pool))).
Proof.
  vm_compute. reflexivity.
Defined.

(** [pkce] succeeds on every input that passes the length check of
    [_code_v], names a supported method, asks for 0 to 128 bytes of state
    and of nonce and supplies encodable text. *)
Lemma pkce_succeeds (cid uri sc method : str) (cvl sl nl : Z) (e : entropy)
    (q1 q2 q3 : str) :
  (32 <= cvl <= 128)%Z ->
  method = u "S256" \/ method = u "plain" ->
  (0 <= sl <= 128)%Z -> (0 <= nl <= 128)%Z ->
  form.encode_value cid = Ok q1 ->
  form.encode_value sc = Ok q2 ->
  form.encode_value uri = Ok q3 ->
  exists payload code_verifier e',
    pkce cid uri sc method cvl sl nl e = Ok (payload, code_verifier, e').
Proof.
  intros Hcv Hm Hs Hn E1 E2 E3. unfold pkce.
  rewrite gen_p_run by (assumption || (unfold PY_SSIZE_T_MAX; lia)).
  cbn [client_id scope redirect_uri __init__].
  rewrite E1, E2, E3. cbn [rbind]. eauto.
Qed.

(** Form encoding on examples: unreserved characters stand, a space
    becomes [+], reserved characters and non-ASCII text are escaped. *)
Example quote_plus_examples :
  urllib.quote_plus (u "a_b-c.d~e") [] = Ok (u "a_b-c.d~e")
  /\ urllib.quote_plus (u "openid profile") [] = Ok (u "openid+profile")
  /\ urllib.quote_plus (u ":/?#[]@!$&'()*+,;=") []
     = Ok (u "%3A%2F%3F%23%5B%5D%40%21%24%26%27%28%29%2A%2B%2C%3B%3D")
  /\ urllib.quote_plus [0xE9; 0x20AC; 0x1F600]%N []
     = Ok (u "%C3%A9%E2%82%AC%F0%9F%98%80")
  /\ urllib.quote_plus [0xD800]%N [] = Raise UnicodeEncodeError
  /\ urllib.urlencode [(u "a b", u "c&d=e"); (u "k", u "")]
     = Ok (u "a+b=c%26d%3De&k=").
Proof.
  repeat split; vm_compute; reflexivity.
Qed.

(** C9.  When [pkce] succeeds, the payload is the form serialization of
    the seven fields [client_id], [scope], [redirect_uri],
    [code_challenge], [code_challenge_method], [state], [nonce], in that
    order and with the values the run produced: its text is the seven
    [name=value] pieces joined by [&], where the three caller-supplied
    values are form encoded (a space as [+], an unreserved character as
    itself, any other byte of the UTF-8 encoding as [%XX]) and the
    generated values stand as they are. *)
Theorem payload_is_ordered_form_serialization
    (client_id redirect_uri scope method : str) (cvl sl nl : Z) (e : entropy)
    (payload code_verifier : str) (e' : entropy) :
  pkce client_id redirect_uri scope method cvl sl nl e
  = Ok (payload, code_verifier, e') ->
  exists code_challenge state nonce e1 e2,
    _code_v (__init__ client_id redirect_uri scope method) cvl e
    = Ok (code_verifier, e1)
    /\ _code_c (__init__ client_id redirect_uri scope method) code_verifier e1
       = Ok (code_challenge, e1)
    /\ _s (__init__ client_id redirect_uri scope method) sl e1
       = Ok (state, e2)
    /\ _n (__init__ client_id redirect_uri scope method) nl e2
       = Ok (nonce, e')
    /\ form.serialize
         [ (u "client_id", client_id);
           (u "scope", scope);
           (u "redirect_uri", redirect_uri);
           (u "code_challenge", code_challenge);
           (u "code_challenge_method", method);
           (u "state", state);
           (u "nonce", nonce) ]
       = Ok payload
    /\ exists q_client_id q_scope q_redirect_uri,
         form.encode_value client_id = Ok q_client_id
         /\ form.encode_value scope = Ok q_scope
         /\ form.encode_value redirect_uri = Ok q_redirect_uri
         /\ payload
            = payload_text q_client_id q_scope q_redirect_uri
                           code_challenge method state nonce.
Proof.
  intros H. unfold pkce in H.
  set (self := __init__ client_id redirect_uri scope method) in *.
  destruct (gen_p_Ok_inv _ _ _ _ _ H) as (_ & Hm & _ & _).
  destruct (gen_p_Ok_run _ _ _ _ _ H)
    as (Ecv & Ee & Hv & Hc & Hs & Hn & q1 & q2 & q3 & E1 & E2 & E3 & Ep).
  eexists. eexists. eexists. eexists. eexists.
  split; [exact Hv|]. split; [apply Hc|].
  split; [exact Hs|]. split; [exact Hn|].
  split.
  - change (form.serialize (data self
              (challenge_of (code_challenge_method self) code_verifier)
              (ascii_text (base64url.encode
                 (pool_take (Z.to_nat sl) (pool_drop (Z.to_nat cvl) e))))
              (ascii_text (base64url.encode
                 (pool_take (Z.to_nat nl)
                    (pool_drop (Z.to_nat sl) (pool_drop (Z.to_nat cvl) e))))))
            = Ok payload).
    rewrite serialize_data;
      try exact Hm; try apply secret_urlsafe;
      try (apply challenge_of_urlsafe; rewrite Ecv; apply secret_urlsafe).
    rewrite E1, E2, E3. cbn [rbind]. now rewrite Ep.
  - exists q1, q2, q3. auto.
Qed.

Lemma payload_is_ordered_form_serialization_witness :
  pkce (u "abc") (u "https://example.com/cb") (u "openid profile") (u "S256")
       32 16 16 sample_pool
  = Ok (sample_payload, sample_verifier,
        pool_drop 16 (pool_drop 16 (pool_drop 32 sample_pool)))
  /\ exists code_challenge state nonce,
       form.serialize
         [ (u "client_id", u "abc");
           (u "scope", u "openid profile");
           (u "redirect_uri", u "https://example.com/cb");
           (u "code_challenge", code_challenge);
           (u "code_challenge_method", u "S256");
           (u "state", state);
           (u "nonce", nonce) ]
       = Ok sample_payload.
Proof.
  split; [exact sample_run|].
  destruct (payload_is_ordered_form_serialization
              (u "abc") (u "https://example.com/cb") (u "openid profile")
              (u "S256") 32 16 16 sample_pool sample_run)
    as (cc & state & nonce & e1 & e2 & _ & _ & _ & _ & H & _).
  exists cc, state, nonce. exact H.
Defined.

(** C3.  When [pkce] succeeds, deriving the challenge of the returned
    code verifier with the configured method succeeds too, and its result
    is the value of the field [code_challenge] read back from the
    returned payload. *)
Theorem challenge_round_trip
    (client_id redirect_uri scope method : str) (cvl sl nl : Z) (e : entropy)
    (payload code_verifier : str) (e' : entropy) :
  pkce client_id redirect_uri scope method cvl sl nl e
  = Ok (payload, code_verifier, e') ->
  exists code_challenge,
    (forall e0,
       _code_c (__init__ client_id redirect_uri scope method) code_verifier e0
       = Ok (code_challenge, e0))
    /\ form.field (u "code_challenge") payload = Some code_challenge.
Proof.
  intros H. unfold pkce in H.
  set (self := __init__ client_id redirect_uri scope method) in *.
  destruct (gen_p_Ok_inv _ _ _ _ _ H) as (_ & Hm & _ & _).
  destruct (gen_p_Ok_run _ _ _ _ _ H)
    as (Ecv & _ & _ & Hc & _ & _ & q1 & q2 & q3 & E1 & E2 & E3 & Ep).
  exists (challenge_of (code_challenge_method self) code_verifier).
  split; [exact Hc|].
  assert (Hcc : Forall (fun c => is_urlsafe c = true)
                  (challenge_of (code_challenge_method self) code_verifier))
    by (apply challenge_of_urlsafe; rewrite Ecv; apply secret_urlsafe).
  assert (Hst : Forall (fun c => is_urlsafe c = true)
                  (ascii_text (base64url.encode
                     (pool_take (Z.to_nat sl) (pool_drop (Z.to_nat cvl) e)))))
    by apply secret_urlsafe.
  assert (Hno : Forall (fun c => is_urlsafe c = true)
                  (ascii_text (base64url.encode
                     (pool_take (Z.to_nat nl)
                        (pool_drop (Z.to_nat sl)
                           (pool_drop (Z.to_nat cvl) e))))))
    by apply secret_urlsafe.
  revert Ep Hcc Hst Hno.
  generalize (challenge_of (code_challenge_method self) code_verifier).
  generalize (ascii_text (base64url.encode
                (pool_take (Z.to_nat sl) (pool_drop (Z.to_nat cvl) e)))).
  generalize (ascii_text (base64url.encode
                (pool_take (Z.to_nat nl)
                   (pool_drop (Z.to_nat sl) (pool_drop (Z.to_nat cvl) e))))).
  intros nonce state cc Ep Hcc Hst Hno.
  assert (Ejoin : payload
    = join [0x26%N]
        (map (fun kv => fst kv ++ [0x3D%N] ++ snd kv)
           [ (u "client_id", q1); (u "scope", q2); (u "redirect_uri", q3);
             (u "code_challenge", cc);
             (u "code_challenge_method", code_challenge_method self);
             (u "state", state); (u "nonce", nonce) ])).
  { rewrite Ep. unfold payload_text. cbn [map join fst snd].
    rewrite <- !app_assoc. reflexivity. }
  unfold form.field. rewrite Ejoin, split_join_pairs.
  - reflexivity.
  - discriminate.
  - destruct (encode_value_no_separator _ E1) as [A1 _].
    destruct (encode_value_no_separator _ E2) as [A2 _].
    destruct (encode_value_no_separator _ E3) as [A3 _].
    destruct (encode_value_no_separator _ (encode_value_urlsafe Hcc)) as [A4 _].
    destruct (encode_value_no_separator _ (encode_value_urlsafe Hst)) as [A6 _].
    destruct (encode_value_no_separator _ (encode_value_urlsafe Hno)) as [A7 _].
    assert (A5 : ~ In 0x26%N (code_challenge_method self))
      by (destruct Hm as [-> | ->]; apply not_In_mem; reflexivity).
    repeat (apply Forall_cons;
            [cbn [fst snd];
             repeat split; try assumption; apply not_In_mem; reflexivity|]).
    apply Forall_nil.
Qed.

Lemma challenge_round_trip_witness :
  pkce (u "abc") (u "https://example.com/cb") (u "openid profile") (u "S256")
       32 16 16 sample_pool
  = Ok (sample_payload, sample_verifier,
        pool_drop 16 (pool_drop 16 (pool_drop 32 sample_pool)))
  /\ exists code_challenge,
       (forall e0,
          _code_c (__init__ (u "abc") (u "https://example.com/cb")
                            (u "openid profile") (u "S256"))
                  sample_verifier e0
          = Ok (code_challenge, e0))
       /\ form.field (u "code_challenge") sample_payload = Some code_challenge.
Proof.
  split; [exact sample_run|].
  exact (challenge_round_trip
           (u "abc") (u "https://example.com/cb") (u "openid profile")
           (u "S256") 32 16 16 sample_pool sample_run).
Defined.

Example sample_round_trip :
  form.field (u "code_challenge") sample_payload
  = Some (u "F-83crhCIQCO17sRSfkFanE5VeZRT-XclLYfcgKs150")
  /\ value (_code_c (__init__ (u "abc") (u "https://example.com/cb")
                              (u "openid profile") (u "S256"))
                    sample_verifier) sample_pool
     = Ok (u "F-83crhCIQCO17sRSfkFanE5VeZRT-XclLYfcgKs150").
Proof.
  split; vm_compute; reflexivity.
Qed.

(** C5 (as the code has it).  [pkce] raises a [ValueError] whenever the
    code verifier length is not positive, or the state length is negative,
    or the nonce length is negative while the state length is between 0
    and 128, a negative length being one from [-2^63] to [-1]: the error
    of [_code_v] for the length of the verifier, else the error of
    [_code_c] when the method is unsupported, else the error of
    [os.urandom] for a negative size.  A state or nonce length of zero is
    not rejected: with a code verifier length in [32, 128], a supported
    method, client text that can be encoded and state and nonce lengths
    from 0 to 128, [pkce] returns, and a length of zero gives an empty
    state or nonce in the payload. *)
Theorem pkce_rejects_unusable_lengths
    (cid uri sc method : str) (cvl sl nl : Z) (e : entropy) :
  ((cvl <= 0
    \/ - 9223372036854775808 <= sl < 0
    \/ (0 <= sl <= 128 /\ - 9223372036854775808 <= nl < 0))%Z ->
   exists msg,
     pkce cid uri sc method cvl sl nl e = Raise (ValueError msg)
     /\ (msg = length_message \/ msg = method_message
         \/ msg = "negative argument not allowed"%string))
  /\ ((32 <= cvl <= 128)%Z ->
      method = u "S256" \/ method = u "plain" ->
      (0 <= sl <= 128)%Z -> (0 <= nl <= 128)%Z ->
      (exists q, form.encode_value cid = Ok q) ->
      (exists q, form.encode_value sc = Ok q) ->
      (exists q, form.encode_value uri = Ok q) ->
      exists payload code_verifier e',
        pkce cid uri sc method cvl sl nl e = Ok (payload, code_verifier, e')
        /\ (sl = 0%Z -> form.field (u "state") payload = Some [])
        /\ (nl = 0%Z -> form.field (u "nonce") payload = Some [])).
Proof.
  split.
  - intros H. unfold pkce. apply gen_p_rejects.
    unfold PY_SSIZE_T_MAX. lia.
  - intros Hcv Hm Hs Hn [q1 E1] [q2 E2] [q3 E3].
    destruct (@pkce_succeeds cid uri sc method cvl sl nl e q1 q2 q3
                Hcv Hm Hs Hn E1 E2 E3) as (payload & cv & e' & H).
    exists payload, cv, e'. split; [exact H|].
    unfold pkce in H.
    destruct (gen_p_Ok_run _ _ _ _ _ H)
      as (Ecv & _ & _ & _ & _ & _ & p1 & p2 & p3 & F1 & F2 & F3 & Ep).
    cbn [client_id scope redirect_uri code_challenge_method __init__] in *.
    assert (Hcc : Forall (fun c => is_urlsafe c = true)
                    (challenge_of method cv))
      by (apply challenge_of_urlsafe; rewrite Ecv; apply secret_urlsafe).
    assert (Hst : Forall (fun c => is_urlsafe c = true)
                    (ascii_text (base64url.encode
                       (pool_take (Z.to_nat sl)
                          (pool_drop (Z.to_nat cvl) e)))))
      by apply secret_urlsafe.
    assert (Hno : Forall (fun c => is_urlsafe c = true)
                    (ascii_text (base64url.encode
                       (pool_take (Z.to_nat nl)
                          (pool_drop (Z.to_nat sl)
                             (pool_drop (Z.to_nat cvl) e))))))
      by apply secret_urlsafe.
    assert (Est : sl = 0%Z ->
                  ascii_text (base64url.encode
                    (pool_take (Z.to_nat sl) (pool_drop (Z.to_nat cvl) e)))
                  = []) by (intros ->; reflexivity).
    assert (Eno : nl = 0%Z ->
                  ascii_text (base64url.encode
                    (pool_take (Z.to_nat nl)
                       (pool_drop (Z.to_nat sl)
                          (pool_drop (Z.to_nat cvl) e))))
                  = []) by (intros ->; reflexivity).
    revert Ep Hcc Hst Hno Est Eno.
    generalize (challenge_of method cv).
    generalize (ascii_text (base64url.encode
                  (pool_take (Z.to_nat sl) (pool_drop (Z.to_nat cvl) e)))).
    generalize (ascii_text (base64url.encode
                  (pool_take (Z.to_nat nl)
                     (pool_drop (Z.to_nat sl)
                        (pool_drop (Z.to_nat cvl) e))))).
    intros nonce state cc Ep Hcc Hst Hno Est Eno.
    assert (Ejoin : payload
      = join [0x26%N]
          (map (fun kv => fst kv ++ [0x3D%N] ++ snd kv)
             [ (u "client_id", p1); (u "scope", p2); (u "redirect_uri", p3);
               (u "code_challenge", cc);
               (u "code_challenge_method", method);
               (u "state", state); (u "nonce", nonce) ])).
    { rewrite Ep. unfold payload_text. cbn [map join fst snd].
      rewrite <- !app_assoc. reflexivity. }
    unfold form.field. rewrite Ejoin, split_join_pairs.
    + cbn [form.lookup].
      change (str_eqb (u "client_id") (u "state")) with false.
      split; intros Hz; [rewrite (Est Hz) | rewrite (Eno Hz)]; reflexivity.
    + discriminate.
    + destruct (encode_value_no_separator _ F1) as [A1 _].
      destruct (encode_value_no_separator _ F2) as [A2 _].
      destruct (encode_value_no_separator _ F3) as [A3 _].
      destruct (encode_value_no_separator _ (encode_value_urlsafe Hcc))
        as [A4 _].
      destruct (encode_value_no_separator _ (encode_value_urlsafe Hst))
        as [A6 _].
      destruct (encode_value_no_separator _ (encode_value_urlsafe Hno))
        as [A7 _].
      assert (A5 : ~ In 0x26%N method)
        by (destruct Hm as [-> | ->]; apply not_In_mem; reflexivity).
      repeat (apply Forall_cons;
              [cbn [fst snd];
               repeat split; try assumption; apply not_In_mem; reflexivity|]).
      apply Forall_nil.
Qed.

Lemma pkce_rejects_unusable_lengths_witness :
  (32 <= 0
   \/ - 9223372036854775808 <= -1 < 0
   \/ (0 <= -1 <= 128 /\ - 9223372036854775808 <= 16 < 0))%Z
  /\ (exists msg,
        pkce (u "abc") (u "https://example.com/cb") (u "openid profile")
             (u "S256") 32 (-1) 16 sample_pool
        = Raise (ValueError msg)
        /\ (msg = length_message \/ msg = method_message
            \/ msg = "negative argument not allowed"%string))
  /\ (32 <= 32 <= 128)%Z /\ (0 <= 0 <= 128)%Z /\ (0 <= 16 <= 128)%Z
  /\ (exists payload code_verifier e',
        pkce (u "abc") (u "https://example.com/cb") (u "openid profile")
             (u "S256") 32 0 16 sample_pool
        = Ok (payload, code_verifier, e')
        /\ (0%Z = 0%Z -> form.field (u "state") payload = Some [])
        /\ (16%Z = 0%Z -> form.field (u "nonce") payload = Some [])).
Proof.
  assert (H : (32 <= 0
               \/ - 9223372036854775808 <= -1 < 0
               \/ (0 <= -1 <= 128 /\ - 9223372036854775808 <= 16 < 0))%Z)
    by (right; left; split; [discriminate | reflexivity]).
  assert (H32 : (32 <= 32 <= 128)%Z) by (split; discriminate).
  assert (H0 : (0 <= 0 <= 128)%Z) by (split; discriminate).
  assert (H16 : (0 <= 16 <= 128)%Z) by (split; discriminate).
  split; [exact H|].
  split.
  - exact (proj1 (@pkce_rejects_unusable_lengths
                    (u "abc") (u "https://example.com/cb")
                    (u "openid profile") (u "S256")
                    32%Z (-1)%Z 16%Z sample_pool) H).
  - split; [exact H32 | split; [exact H0 | split; [exact H16|]]].
    refine (proj2 (@pkce_rejects_unusable_lengths
                     (u "abc") (u "https://example.com/cb")
                     (u "openid profile") (u "S256")
                     32%Z 0%Z 16%Z sample_pool)
                  H32 (or_introl eq_refl) H0 H16 _ _ _);
      eexists; vm_compute; reflexivity.
Defined.

(** C5 as stated fails: with a state length of zero, which is not a
    positive integer, [pkce] raises nothing and returns a payload whose
    state is empty. *)
Lemma zero_state_length_is_accepted :
  value (pkce (u "abc") (u "https://example.com/cb") (u "openid profile")
              (u "S256") 32 0 16) sample_pool
  = Ok (sample_payload_empty_state, sample_verifier)
  /\ ~ (forall client_id redirect_uri scope method cvl sl nl e,
          (cvl <= 0 \/ sl <= 0 \/ nl <= 0)%Z ->
          exists x,
            value (pkce client_id redirect_uri scope method cvl sl nl) e
            = Raise x).
Proof.
  assert (E : value (pkce (u "abc") (u "https://example.com/cb")
                          (u "openid profile") (u "S256") 32 0 16) sample_pool
              = Ok (sample_payload_empty_state, sample_verifier))
    by (vm_compute; reflexivity).
  split; [exact E|].
  intros H.
  destruct (H (u "abc") (u "https://example.com/cb") (u "openid profile")
              (u "S256") 32%Z 0%Z 16%Z sample_pool) as [x Hx].
  - right. left. discriminate.
  - rewrite E in Hx. discriminate.
Qed.

(* ================================================================== *)
(** * Further properties of the secrets *)

Lemma encoded_length_Z (n : Z) :
  (0 <= n)%Z ->
  Z.of_nat (base64url.encoded_length (Z.to_nat n)) = ((4 * n + 2) / 3)%Z.
Proof.
  intros H. unfold base64url.encoded_length.
  rewrite Nat2Z.inj_div, Nat2Z.inj_add, Nat2Z.inj_mul, Z2Nat.id by exact H.
  reflexivity.
Qed.

Lemma secret_length (n : nat) (e : entropy) :
  length (ascii_text (base64url.encode (pool_take n e)))
  = base64url.encoded_length n.
Proof.
  unfold ascii_text, pool_take.
  now rewrite length_map, encode_length, length_map, length_seq.
Qed.

(** X1.  For every byte length [n] in [32, 128], [_code_v] returns a
    verifier of exactly the ceiling of [4n/3] characters, written
    [(4n + 2) / 3]: at least 43, and at most 128 exactly when [n] is at
    most 96. *)
Theorem code_v_character_count (self : PKCE) (n : Z) (e : entropy) :
  (32 <= n <= 128)%Z ->
  exists code_verifier e',
    _code_v self n e = Ok (code_verifier, e')
    /\ Z.of_nat (length code_verifier) = ((4 * n + 2) / 3)%Z
    /\ (43 <= Z.of_nat (length code_verifier))%Z
    /\ (Z.of_nat (length code_verifier) <= 128 <-> n <= 96)%Z.
Proof.
  intros H. rewrite code_v_in_bounds by exact H.
  eexists. eexists. split; [reflexivity|].
  rewrite secret_length, encoded_length_Z by lia.
  pose proof (Z.div_mod (4 * n + 2) 3 ltac:(discriminate)) as E.
  pose proof (Z.mod_pos_bound (4 * n + 2) 3 ltac:(reflexivity)) as B.
  repeat split; lia.
Qed.

Lemma code_v_character_count_witness :
  (32 <= 32 <= 128)%Z
  /\ exists code_verifier e',
       _code_v (__init__ (u "abc") (u "https://example.com/cb")
                         (u "openid") (u "S256")) 32 sample_pool
       = Ok (code_verifier, e')
       /\ Z.of_nat (length code_verifier) = ((4 * 32 + 2) / 3)%Z
       /\ (43 <= Z.of_nat (length code_verifier))%Z
       /\ (Z.of_nat (length code_verifier) <= 128 <-> 32 <= 96)%Z.
Proof.
  assert (H : (32 <= 32 <= 128)%Z) by (split; discriminate).
  split; [exact H|].
  exact (@code_v_character_count
           (__init__ (u "abc") (u "https://example.com/cb")
                     (u "openid") (u "S256")) 32%Z sample_pool H).
Defined.

(** X2.  For every byte length [n] from 0 to 128, [_s] and [_n] return,
    and return the same text from the same pool; and for every byte
    length [n] whatever, every text that [_s] or [_n] returns has exactly
    [(4n + 2) / 3] characters, so it is the empty text for [n = 0]. *)
Theorem token_character_count (self : PKCE) (n : Z) (e : entropy) :
  ((0 <= n <= 128)%Z ->
   exists token e',
     _s self n e = Ok (token, e') /\ _n self n e = Ok (token, e'))
  /\ (forall token e',
        _s self n e = Ok (token, e') \/ _n self n e = Ok (token, e') ->
        Z.of_nat (length token) = ((4 * n + 2) / 3)%Z
        /\ (n = 0%Z -> token = [])).
Proof.
  split.
  - intros H.
    destruct (@token_ok self n e ltac:(unfold PY_SSIZE_T_MAX; lia))
      as [Hs Hn].
    rewrite Hn, Hs. eexists. eexists. split; reflexivity.
  - intros token e' H.
    destruct (token_Ok_inv self n e H) as (Hb & -> & _). split.
    + rewrite secret_length, encoded_length_Z by lia. reflexivity.
    + intros ->. reflexivity.
Qed.

Lemma token_character_count_witness :
  (0 <= 16 <= 128)%Z
  /\ exists token e',
       _s (__init__ (u "abc") (u "https://example.com/cb")
                    (u "openid") (u "S256")) 16 sample_pool
       = Ok (token, e')
       /\ _n (__init__ (u "abc") (u "https://example.com/cb")
                       (u "openid") (u "S256")) 16 sample_pool
          = Ok (token, e')
       /\ Z.of_nat (length token) = ((4 * 16 + 2) / 3)%Z.
Proof.
  assert (H : (0 <= 16 <= 128)%Z) by (split; discriminate).
  split; [exact H|].
  destruct (proj1 (@token_character_count
                     (__init__ (u "abc") (u "https://example.com/cb")
                               (u "openid") (u "S256")) 16%Z sample_pool) H)
    as (token & e' & Hs & Hn).
  exists token, e'. split; [exact Hs | split; [exact Hn|]].
  exact (proj1 (proj2 (@token_character_count
                         (__init__ (u "abc") (u "https://example.com/cb")
                                   (u "openid") (u "S256")) 16%Z sample_pool)
                      token e' (or_introl Hs))).
Defined.

(** X3.  [_code_v] strips the padding from the bytes and decodes, [_s]
    and [_n] decode and strip the padding from the text: for every byte
    length in [32, 128] the three return the same text and leave the same
    pool. *)
Theorem secrets_share_one_encoding (self : PKCE) (n : Z) (e : entropy) :
  (32 <= n <= 128)%Z ->
  _s self n e = _code_v self n e /\ _n self n e = _code_v self n e.
Proof.
  intros H.
  destruct (@token_ok self n e ltac:(unfold PY_SSIZE_T_MAX; lia))
    as [Hs Hn].
  rewrite Hn, Hs, code_v_in_bounds by exact H. split; reflexivity.
Qed.

Lemma secrets_share_one_encoding_witness :
  (32 <= 50 <= 128)%Z
  /\ _s (__init__ (u "abc") (u "https://example.com/cb")
                  (u "openid") (u "S256")) 50 sample_pool
     = _code_v (__init__ (u "abc") (u "https://example.com/cb")
                         (u "openid") (u "S256")) 50 sample_pool.
Proof.
  assert (H : (32 <= 50 <= 128)%Z) by (split; discriminate).
  split; [exact H|].
  exact (proj1 (@secrets_share_one_encoding
                  (__init__ (u "abc") (u "https://example.com/cb")
                            (u "openid") (u "S256")) 50%Z sample_pool H)).
Defined.

(* ================================================================== *)
(** * Further properties of the challenge *)

Lemma encode_ascii_Ok_inv (s : str) (data : bytes) :
  encode_ascii s = Ok data -> is_ascii s.
Proof.
  revert data. induction s as [|c s IH]; intros data; simpl.
  - intros _. constructor.
  - destruct (c <? 128)%N eqn:Hc; [|discriminate].
    destruct (encode_ascii s) as [t|]; [|discriminate].
    intros _. constructor; [now apply N.ltb_lt | now apply (IH t)].
Qed.

(** X4.  With method ["S256"], [_code_c] returns a challenge exactly when
    the verifier is ASCII text; on any other text it raises
    [UnicodeEncodeError]. *)
Theorem code_c_S256_needs_ascii (self : PKCE) (v : str) (e : entropy) :
  code_challenge_method self = u "S256" ->
  ((exists challenge e', _code_c self v e = Ok (challenge, e')) <-> is_ascii v)
  /\ (~ is_ascii v -> _code_c self v e = Raise UnicodeEncodeError).
Proof.
  intros Hm. split; [split|].
  - intros (c & e' & H). unfold _code_c in H. rewrite Hm in H.
    change (str_eqb (u "S256") (u "S256")) with true in H. cbv iota in H.
    unfold bind, lift in H.
    destruct (encode_ascii v) as [data|] eqn:E; [|discriminate].
    now apply encode_ascii_Ok_inv with (data := data).
  - intros Hv. rewrite (code_c_S256 self e Hm Hv). eauto.
  - intros Hv. now apply code_c_S256_not_ascii.
Qed.

Lemma code_c_S256_needs_ascii_witness :
  code_challenge_method (__init__ (u "abc") (u "https://example.com/cb")
                                  (u "openid") (u "S256")) = u "S256"
  /\ ~ is_ascii [0xE9%N]
  /\ _code_c (__init__ (u "abc") (u "https://example.com/cb")
                       (u "openid") (u "S256")) [0xE9%N] sample_pool
     = Raise UnicodeEncodeError.
Proof.
  assert (Hn : ~ is_ascii [0xE9%N]).
  { intros H. inversion H as [|c s Hc Hs]. discriminate Hc. }
  split; [reflexivity | split; [exact Hn|]].
  exact (proj2 (@code_c_S256_needs_ascii
                  (__init__ (u "abc") (u "https://example.com/cb")
                            (u "openid") (u "S256"))
                  [0xE9%N] sample_pool eq_refl) Hn).
Defined.

(** X5.  With method ["S256"], the challenge of an ASCII verifier consists
    of characters of the URL-safe base64 alphabet only, with no [=]. *)
Theorem code_c_S256_is_urlsafe_text (self : PKCE) (v : str) (e : entropy) :
  code_challenge_method self = u "S256" ->
  is_ascii v ->
  exists challenge,
    _code_c self v e = Ok (challenge, e) /\ urlsafe_text challenge.
Proof.
  intros Hm Hv. exists (S256_challenge v). split.
  - now apply code_c_S256.
  - apply urlsafe_text_intro, S256_challenge_urlsafe.
Qed.

Lemma code_c_S256_is_urlsafe_text_witness :
  code_challenge_method (__init__ (u "abc") (u "https://example.com/cb")
                                  (u "openid") (u "S256")) = u "S256"
  /\ is_ascii (u "a~b")
  /\ exists challenge,
       _code_c (__init__ (u "abc") (u "https://example.com/cb")
                         (u "openid") (u "S256")) (u "a~b") sample_pool
       = Ok (challenge, sample_pool)
       /\ urlsafe_text challenge.
Proof.
  assert (Ha : is_ascii (u "a~b")) by (repeat constructor).
  split; [reflexivity | split; [exact Ha|]].
  exact (@code_c_S256_is_urlsafe_text
           (__init__ (u "abc") (u "https://example.com/cb")
                     (u "openid") (u "S256"))
           (u "a~b") sample_pool eq_refl Ha).
Defined.

(* ================================================================== *)
(** * Which text can be encoded *)

Lemma encode_utf8_char_cases (c : N) :
  (encodable_char c = true /\ exists h, urllib.encode_utf8_char c = Ok h)
  \/ (encodable_char c = false
      /\ urllib.encode_utf8_char c = Raise UnicodeEncodeError).
Proof.
  unfold encodable_char, urllib.encode_utf8_char.
  destruct (N.ltb_spec c 0x80), (N.ltb_spec c 0x800),
    (N.ltb_spec c 0x10000), (N.ltb_spec c 0x110000),
    (N.ltb_spec c 0xD800), (N.ltb_spec 0xDFFF c),
    (N.leb_spec 0xD800 c), (N.leb_spec c 0xDFFF);
    cbn [andb orb]; try lia;
    solve [left; split; [reflexivity | eauto]
          | right; split; reflexivity].
Qed.

Lemma encode_utf8_cases (s : str) :
  (encodable s /\ exists bs, urllib.encode_utf8 s = Ok bs)
  \/ (~ encodable s /\ urllib.encode_utf8 s = Raise UnicodeEncodeError).
Proof.
  induction s as [|c s IH]; simpl.
  - left. split; [constructor | eauto].
  - destruct (encode_utf8_char_cases c) as [(Hc & h & ->)|(Hc & ->)].
    + cbn [rbind]. destruct IH as [(Hs & bs & ->)|(Hs & ->)].
      * left. split; [now constructor | cbn [rbind]; eauto].
      * right. split; [|reflexivity].
        intros H. inversion H. contradiction.
    + right. split; [|reflexivity].
      intros H. inversion H. congruence.
Qed.

Lemma encode_value_cases (s : str) :
  (encodable s /\ exists q, form.encode_value s = Ok q)
  \/ (~ encodable s /\ form.encode_value s = Raise UnicodeEncodeError).
Proof.
  unfold form.encode_value.
  destruct (encode_utf8_cases s) as [(Hs & bs & ->)|(Hs & ->)].
  - left. split; [exact Hs | cbn [rbind]; eauto].
  - right. split; [exact Hs | reflexivity].
Qed.

Lemma encode_value_Ok_encodable (s q : str) :
  form.encode_value s = Ok q -> encodable s.
Proof.
  intros H. destruct (encode_value_cases s) as [[Hs _]|[_ E]];
    [exact Hs | congruence].
Qed.

(* ================================================================== *)
(** * When [pkce] succeeds and how it fails *)

(** X6.  [pkce] returns a payload and a verifier only if the code
    verifier length is in [32, 128], the method is ["S256"] or ["plain"],
    the state and nonce lengths are not negative, and the client
    identifier, the scope and the redirect URI are text that UTF-8 can
    encode; and it does return whenever all this holds and the state and
    nonce lengths are at most 128. *)
Theorem pkce_success_conditions
    (client_id redirect_uri scope method : str) (cvl sl nl : Z) (e : entropy) :
  ((exists payload code_verifier e',
      pkce client_id redirect_uri scope method cvl sl nl e
      = Ok (payload, code_verifier, e')) ->
   (32 <= cvl <= 128)%Z
   /\ (method = u "S256" \/ method = u "plain")
   /\ (0 <= sl)%Z /\ (0 <= nl)%Z
   /\ encodable client_id /\ encodable scope /\ encodable redirect_uri)
  /\ ((32 <= cvl <= 128)%Z ->
      method = u "S256" \/ method = u "plain" ->
      (0 <= sl <= 128)%Z -> (0 <= nl <= 128)%Z ->
      encodable client_id -> encodable scope -> encodable redirect_uri ->
      exists payload code_verifier e',
        pkce client_id redirect_uri scope method cvl sl nl e
        = Ok (payload, code_verifier, e')).
Proof.
  split.
  - intros (payload & cv & e' & H). unfold pkce in H.
    destruct (gen_p_Ok_inv _ _ _ _ _ H) as (Hcv & Hm & Hs & Hn).
    destruct (gen_p_Ok_run _ _ _ _ _ H)
      as (_ & _ & _ & _ & _ & _ & q1 & q2 & q3 & E1 & E2 & E3 & _).
    split; [exact Hcv|]. split; [exact Hm|].
    split; [apply Hs|]. split; [apply Hn|].
    split; [|split]; eapply encode_value_Ok_encodable; eassumption.
  - intros Hcv Hm Hs Hn H1 H2 H3.
    destruct (encode_value_cases client_id) as [(_ & q1 & E1)|[N1 _]];
      [|contradiction].
    destruct (encode_value_cases scope) as [(_ & q2 & E2)|[N2 _]];
      [|contradiction].
    destruct (encode_value_cases redirect_uri) as [(_ & q3 & E3)|[N3 _]];
      [|contradiction].
    now apply pkce_succeeds with (q1 := q1) (q2 := q2) (q3 := q3).
Qed.

Lemma pkce_success_conditions_witness :
  (32 <= 32 <= 128)%Z /\ (0 <= 16 <= 128)%Z
  /\ encodable (u "abc") /\ encodable (u "openid profile")
  /\ encodable (u "https://example.com/cb")
  /\ exists payload code_verifier e',
       pkce (u "abc") (u "https://example.com/cb") (u "openid profile")
            (u "S256") 32 16 16 sample_pool
       = Ok (payload, code_verifier, e').
Proof.
  assert (H32 : (32 <= 32 <= 128)%Z) by (split; discriminate).
  assert (H16 : (0 <= 16 <= 128)%Z) by (split; discriminate).
  assert (E1 : encodable (u "abc")) by (repeat constructor).
  assert (E2 : encodable (u "openid profile")) by (repeat constructor).
  assert (E3 : encodable (u "https://example.com/cb"))
    by (repeat constructor).
  split; [exact H32 | split; [exact H16|]].
  split; [exact E1 | split; [exact E2 | split; [exact E3|]]].
  exact (proj2 (@pkce_success_conditions
                  (u "abc") (u "https://example.com/cb") (u "openid profile")
                  (u "S256") 32%Z 16%Z 16%Z sample_pool)
               H32 (or_introl eq_refl) H16 H16 E1 E2 E3).
Defined.

(** X7.  The checks of [pkce] come in a fixed order.  With the code
    verifier length in bounds, an unsupported method raises its
    [ValueError] whatever the other lengths are.  With a supported
    method, a state length that does not fit a C [ssize_t] raises
    [OverflowError] and a negative one that fits raises the [ValueError]
    of [os.urandom]; with a state length from 0 to 128 the same holds of
    the nonce length; and with both from 0 to 128, client text that UTF-8
    cannot encode raises [UnicodeEncodeError]. *)
Theorem pkce_failure_order
    (cid uri sc method : str) (cvl sl nl : Z) (e : entropy) :
  (32 <= cvl <= 128)%Z ->
  (method <> u "S256" /\ method <> u "plain" ->
   pkce cid uri sc method cvl sl nl e
   = Raise (ValueError method_message))
  /\ (method = u "S256" \/ method = u "plain" ->
      (sl < - 9223372036854775808 \/ 9223372036854775808 <= sl)%Z ->
      pkce cid uri sc method cvl sl nl e = Raise OverflowError)
  /\ (method = u "S256" \/ method = u "plain" ->
      (- 9223372036854775808 <= sl < 0)%Z ->
      pkce cid uri sc method cvl sl nl e
      = Raise (ValueError "negative argument not allowed"))
  /\ (method = u "S256" \/ method = u "plain" ->
      (0 <= sl <= 128)%Z ->
      (nl < - 9223372036854775808 \/ 9223372036854775808 <= nl)%Z ->
      pkce cid uri sc method cvl sl nl e = Raise OverflowError)
  /\ (method = u "S256" \/ method = u "plain" ->
      (0 <= sl <= 128)%Z ->
      (- 9223372036854775808 <= nl < 0)%Z ->
      pkce cid uri sc method cvl sl nl e
      = Raise (ValueError "negative argument not allowed"))
  /\ (method = u "S256" \/ method = u "plain" ->
      (0 <= sl <= 128)%Z -> (0 <= nl <= 128)%Z ->
      ~ (encodable cid /\ encodable sc /\ encodable uri) ->
      pkce cid uri sc method cvl sl nl e
      = Raise UnicodeEncodeError).
Proof.
  intros Hcv. unfold pkce.
  set (self := __init__ cid uri sc method).
  assert (Hrun : method = u "S256" \/ method = u "plain" ->
            _gen_p self cvl sl nl e
            = bind (_s self sl) (fun state =>
              bind (_n self nl) (fun nonce =>
              bind (lift (urllib.urlencode
                            (data self
                               (challenge_of method
                                  (ascii_text (base64url.encode
                                     (pool_take (Z.to_nat cvl) e))))
                               state nonce)))
                   (fun payload =>
              ret (payload,
                   ascii_text (base64url.encode
                                 (pool_take (Z.to_nat cvl) e))))))
                (pool_drop (Z.to_nat cvl) e)).
  { intros Hm. unfold _gen_p. unfold bind at 1 2.
    rewrite code_v_in_bounds by exact Hcv.
    rewrite code_c_supported
      by (try exact Hm; apply urlsafe_is_ascii, secret_urlsafe).
    reflexivity. }
  split; [|split; [|split; [|split; [|split]]]].
  - intros [H1 H2]. unfold _gen_p, bind.
    rewrite code_v_in_bounds by exact Hcv.
    now rewrite (@code_c_unsupported self _ _ H1 H2).
  - intros Hm Hsl. rewrite (Hrun Hm). unfold bind.
    now destruct (@token_overflow self sl (pool_drop (Z.to_nat cvl) e)
                    ltac:(unfold PY_SSIZE_T_MAX; lia)) as [-> _].
  - intros Hm Hsl. rewrite (Hrun Hm). unfold bind.
    now destruct (@token_negative self sl (pool_drop (Z.to_nat cvl) e)
                    ltac:(unfold PY_SSIZE_T_MAX; lia)) as [-> _].
  - intros Hm Hsl Hnl. rewrite (Hrun Hm). unfold bind.
    destruct (@token_ok self sl (pool_drop (Z.to_nat cvl) e)
                ltac:(unfold PY_SSIZE_T_MAX; lia)) as [-> _].
    now destruct (@token_overflow self nl
                    (pool_drop (Z.to_nat sl) (pool_drop (Z.to_nat cvl) e))
                    ltac:(unfold PY_SSIZE_T_MAX; lia)) as [_ ->].
  - intros Hm Hsl Hnl. rewrite (Hrun Hm). unfold bind.
    destruct (@token_ok self sl (pool_drop (Z.to_nat cvl) e)
                ltac:(unfold PY_SSIZE_T_MAX; lia)) as [-> _].
    now destruct (@token_negative self nl
                    (pool_drop (Z.to_nat sl) (pool_drop (Z.to_nat cvl) e))
                    ltac:(unfold PY_SSIZE_T_MAX; lia)) as [_ ->].
  - intros Hm Hs Hn Hbad.
    rewrite gen_p_run by (assumption || (unfold PY_SSIZE_T_MAX; lia)).
    cbn [client_id scope redirect_uri __init__ self].
    destruct (encode_value_cases cid) as [(H1 & q1 & ->)|(_ & ->)];
      [|reflexivity].
    destruct (encode_value_cases sc) as [(H2 & q2 & ->)|(_ & ->)];
      [|reflexivity].
    destruct (encode_value_cases uri) as [(H3 & q3 & ->)|(_ & ->)];
      [|reflexivity].
    exfalso. apply Hbad. auto.
Qed.

Lemma pkce_failure_order_witness :
  (32 <= 32 <= 128)%Z
  /\ (u "HS256" <> u "S256" /\ u "HS256" <> u "plain")
  /\ pkce (u "abc") (u "https://example.com/cb") (u "openid profile")
          (u "HS256") 32 (-1) (-1) sample_pool
     = Raise (ValueError method_message).
Proof.
  assert (H : (32 <= 32 <= 128)%Z) by (split; discriminate).
  assert (Hm : u "HS256" <> u "S256" /\ u "HS256" <> u "plain")
    by (split; discriminate).
  split; [exact H | split; [exact Hm|]].
  exact (proj1 (@pkce_failure_order
                  (u "abc") (u "https://example.com/cb") (u "openid profile")
                  (u "HS256") 32%Z (-1)%Z (-1)%Z sample_pool H) Hm).
Defined.

(* ================================================================== *)
(** * The payload, read back *)

Lemma payload_text_fields (q1 q2 q3 cc m st no : str) :
  ~ In 0x26%N q1 -> ~ In 0x26%N q2 -> ~ In 0x26%N q3 -> ~ In 0x26%N cc ->
  ~ In 0x26%N m -> ~ In 0x26%N st -> ~ In 0x26%N no ->
  payload_fields (payload_text q1 q2 q3 cc m st no)
  = [ (u "client_id", q1); (u "scope", q2); (u "redirect_uri", q3);
      (u "code_challenge", cc); (u "code_challenge_method", m);
      (u "state", st); (u "nonce", no) ].
Proof.
  intros A1 A2 A3 A4 A5 A6 A7.
  assert (Ejoin : payload_text q1 q2 q3 cc m st no
    = join [0x26%N]
        (map (fun kv => fst kv ++ [0x3D%N] ++ snd kv)
           [ (u "client_id", q1); (u "scope", q2); (u "redirect_uri", q3);
             (u "code_challenge", cc); (u "code_challenge_method", m);
             (u "state", st); (u "nonce", no) ])).
  { unfold payload_text. cbn [map join fst snd].
    rewrite <- !app_assoc. reflexivity. }
  unfold payload_fields. rewrite Ejoin. apply split_join_pairs.
  - discriminate.
  - repeat (apply Forall_cons;
            [cbn [fst snd];
             repeat split; try assumption; apply not_In_mem; reflexivity|]).
    apply Forall_nil.
Qed.

Lemma pool_take_shift (f e : entropy) (k n : nat) :
  (forall i, f i = e (k + i)%nat) -> pool_take n f = pool_slice k n e.
Proof.
  intros Hf. unfold pool_take, pool_slice.
  assert (H : forall j, map f (seq j n) = map e (seq (k + j) n)).
  { induction n as [|n IH]; intros j; [reflexivity|].
    cbn [seq map]. rewrite Hf, IH. now rewrite Nat.add_succ_r. }
  rewrite H. now rewrite Nat.add_0_r.
Qed.

Lemma secret_of_unpadded (raw : bytes) :
  secret_of raw = ascii_text (base64url.encode raw).
Proof.
  unfold secret_of. now rewrite rstrip_urlsafe_b64encode.
Qed.

(** The fields of the payload of a successful run. *)
Lemma run_fields (self : PKCE) (cvl sl nl : Z) (e : entropy)
    (payload cv : str) (e' : entropy) :
  _gen_p self cvl sl nl e = Ok (payload, cv, e') ->
  exists q1 q2 q3,
    form.encode_value (client_id self) = Ok q1
    /\ form.encode_value (scope self) = Ok q2
    /\ form.encode_value (redirect_uri self) = Ok q3
    /\ cv = secret_of (pool_slice 0 (Z.to_nat cvl) e)
    /\ payload_fields payload
       = [ (u "client_id", q1); (u "scope", q2); (u "redirect_uri", q3);
           (u "code_challenge", challenge_of (code_challenge_method self) cv);
           (u "code_challenge_method", code_challenge_method self);
           (u "state",
            secret_of (pool_slice (Z.to_nat cvl) (Z.to_nat sl) e));
           (u "nonce",
            secret_of (pool_slice (Z.to_nat cvl + Z.to_nat sl)
                                  (Z.to_nat nl) e)) ]
    /\ forall i,
         e' i = e (Z.to_nat cvl + Z.to_nat sl + Z.to_nat nl + i)%nat.
Proof.
  intros H.
  destruct (gen_p_Ok_inv _ _ _ _ _ H) as (_ & Hm & _ & _).
  destruct (gen_p_Ok_run _ _ _ _ _ H)
    as (Ecv & Ee & _ & _ & _ & _ & q1 & q2 & q3 & E1 & E2 & E3 & Ep).
  exists q1, q2, q3.
  split; [exact E1|]. split; [exact E2|]. split; [exact E3|].
  split.
  { rewrite secret_of_unpadded, Ecv. reflexivity. }
  split.
  - rewrite Ep, !secret_of_unpadded.
    rewrite <- (@pool_take_shift (pool_drop (Z.to_nat cvl) e) e
                  (Z.to_nat cvl) (Z.to_nat sl)) by reflexivity.
    rewrite <- (@pool_take_shift
                  (pool_drop (Z.to_nat sl) (pool_drop (Z.to_nat cvl) e)) e
                  (Z.to_nat cvl + Z.to_nat sl) (Z.to_nat nl))
      by (intros i; unfold pool_drop; f_equal; lia).
    assert (Hcc : Forall (fun c => is_urlsafe c = true)
                    (challenge_of (code_challenge_method self) cv))
      by (apply challenge_of_urlsafe; rewrite Ecv; apply secret_urlsafe).
    apply payload_text_fields.
    + apply (encode_value_no_separator _ E1).
    + apply (encode_value_no_separator _ E2).
    + apply (encode_value_no_separator _ E3).
    + apply (encode_value_no_separator _ (encode_value_urlsafe Hcc)).
    + destruct Hm as [-> | ->]; apply not_In_mem; reflexivity.
    + apply (encode_value_no_separator _
               (encode_value_urlsafe (secret_urlsafe _ _))).
    + apply (encode_value_no_separator _
               (encode_value_urlsafe (secret_urlsafe _ _))).
  - intros i. rewrite Ee. unfold pool_drop. f_equal. lia.
Qed.

(** X8.  A successful run of [pkce] draws its three secrets from
    consecutive, non-overlapping stretches of the entropy pool: the code
    verifier from the first [code_verifier_length] bytes, the state found
    in the payload from the next [state_length] bytes, the nonce from the
    [nonce_length] bytes after those; the pool it leaves starts right
    behind them. *)
Theorem pkce_draws_consecutive_bytes
    (cid uri sc method : str) (cvl sl nl : Z) (e : entropy)
    (payload code_verifier : str) (e' : entropy) :
  pkce cid uri sc method cvl sl nl e = Ok (payload, code_verifier, e') ->
  code_verifier = secret_of (pool_slice 0 (Z.to_nat cvl) e)
  /\ form.field (u "state") payload
     = Some (secret_of (pool_slice (Z.to_nat cvl) (Z.to_nat sl) e))
  /\ form.field (u "nonce") payload
     = Some (secret_of (pool_slice (Z.to_nat cvl + Z.to_nat sl)
                                   (Z.to_nat nl) e))
  /\ forall i, e' i = e (Z.to_nat cvl + Z.to_nat sl + Z.to_nat nl + i)%nat.
Proof.
  intros H. unfold pkce in H.
  destruct (run_fields _ _ _ _ _ H)
    as (q1 & q2 & q3 & _ & _ & _ & Ecv & Ef & Ee).
  split; [exact Ecv|].
  unfold form.field. fold (payload_fields payload). rewrite Ef.
  split; [reflexivity|]. split; [reflexivity | exact Ee].
Qed.

Lemma pkce_draws_consecutive_bytes_witness :
  pkce (u "abc") (u "https://example.com/cb") (u "openid profile") (u "S256")
       32 16 16 sample_pool
  = Ok (sample_payload, sample_verifier,
        pool_drop 16 (pool_drop 16 (pool_drop 32 sample_pool)))
  /\ sample_verifier = secret_of (pool_slice 0 32 sample_pool)
  /\ form.field (u "state") sample_payload
     = Some (secret_of (pool_slice 32 16 sample_pool))
  /\ form.field (u "nonce") sample_payload
     = Some (secret_of (pool_slice 48 16 sample_pool)).
Proof.
  split; [exact sample_run|].
  destruct (@pkce_draws_consecutive_bytes
              (u "abc") (u "https://example.com/cb") (u "openid profile")
              (u "S256") 32%Z 16%Z 16%Z sample_pool _ _ _ sample_run)
    as (H1 & H2 & H3 & _).
  split; [exact H1 | split; [exact H2 | exact H3]].
Defined.

(** The run of [pkce] on the sample pool with method ["plain"]. *)
Lemma sample_run_plain :
  pkce (u "abc") (u "https://example.com/cb") (u "openid profile") (u "plain")
       32 16 16 sample_pool
  = Ok (sample_payload_plain, sample_verifier,
        pool_drop 16 (pool_drop 16 (pool_drop 32 sample_pool))).
Proof.
  vm_compute. reflexivity.
Defined.

(** X9.  With method ["plain"], the payload of a successful run carries
    the code verifier itself in its [code_challenge] field. *)
Theorem plain_payload_carries_verifier
    (cid uri sc : str) (cvl sl nl : Z) (e : entropy)
    (payload code_verifier : str) (e' : entropy) :
  pkce cid uri sc (u "plain") cvl sl nl e = Ok (payload, code_verifier, e') ->
  form.field (u "code_challenge") payload = Some code_verifier
  /\ form.field (u "code_challenge_method") payload = Some (u "plain").
Proof.
  intros H. unfold pkce in H.
  destruct (run_fields _ _ _ _ _ H)
    as (q1 & q2 & q3 & _ & _ & _ & _ & Ef & _).
  unfold form.field. fold (payload_fields payload). rewrite Ef.
  split; reflexivity.
Qed.

Lemma plain_payload_carries_verifier_witness :
  pkce (u "abc") (u "https://example.com/cb") (u "openid profile") (u "plain")
       32 16 16 sample_pool
  = Ok (sample_payload_plain, sample_verifier,
        pool_drop 16 (pool_drop 16 (pool_drop 32 sample_pool)))
  /\ form.field (u "code_challenge") sample_payload_plain
     = Some sample_verifier.
Proof.
  split; [exact sample_run_plain|].
  exact (proj1 (@plain_payload_carries_verifier
                  (u "abc") (u "https://example.com/cb") (u "openid profile")
                  32%Z 16%Z 16%Z sample_pool _ _ _ sample_run_plain)).
Defined.

(** X10.  The payload of a successful run reads back as exactly seven
    fields, named [client_id], [scope], [redirect_uri], [code_challenge],
    [code_challenge_method], [state] and [nonce] in this order; the first
    three hold the form encoding of the caller's text, the fifth the
    method as given, and there is no field [code_verifier]. *)
Theorem payload_reads_back
    (cid uri sc method : str) (cvl sl nl : Z) (e : entropy)
    (payload code_verifier : str) (e' : entropy) :
  pkce cid uri sc method cvl sl nl e = Ok (payload, code_verifier, e') ->
  map fst (payload_fields payload)
  = [ u "client_id"; u "scope"; u "redirect_uri"; u "code_challenge";
      u "code_challenge_method"; u "state"; u "nonce" ]
  /\ (exists q_cid q_sc q_uri,
        form.encode_value cid = Ok q_cid
        /\ form.encode_value sc = Ok q_sc
        /\ form.encode_value uri = Ok q_uri
        /\ form.field (u "client_id") payload = Some q_cid
        /\ form.field (u "scope") payload = Some q_sc
        /\ form.field (u "redirect_uri") payload = Some q_uri)
  /\ form.field (u "code_challenge_method") payload = Some method
  /\ form.field (u "code_verifier") payload = None.
Proof.
  intros H. unfold pkce in H.
  destruct (run_fields _ _ _ _ _ H)
    as (q1 & q2 & q3 & E1 & E2 & E3 & _ & Ef & _).
  unfold form.field. fold (payload_fields payload). rewrite Ef.
  split; [reflexivity|]. split; [|split; reflexivity].
  exists q1, q2, q3. repeat split; assumption || reflexivity.
Qed.

Lemma payload_reads_back_witness :
  pkce (u "abc") (u "https://example.com/cb") (u "openid profile") (u "S256")
       32 16 16 sample_pool
  = Ok (sample_payload, sample_verifier,
        pool_drop 16 (pool_drop 16 (pool_drop 32 sample_pool)))
  /\ map fst (payload_fields sample_payload)
     = [ u "client_id"; u "scope"; u "redirect_uri"; u "code_challenge";
         u "code_challenge_method"; u "state"; u "nonce" ]
  /\ form.field (u "code_verifier") sample_payload = None.
Proof.
  split; [exact sample_run|].
  destruct (@payload_reads_back
              (u "abc") (u "https://example.com/cb") (u "openid profile")
              (u "S256") 32%Z 16%Z 16%Z sample_pool _ _ _ sample_run)
    as (H1 & _ & _ & H4).
  split; [exact H1 | exact H4].
Defined.

Lemma forallb_Forall {A} (f : A -> bool) (l : list A) :
  forallb f l = true -> Forall (fun x => f x = true) l.
Proof.
  intros H. apply Forall_forall. now apply forallb_forall.
Qed.

Lemma encode_byte_chars (x : byte) :
  forallb payload_char (form.encode_byte x) = true.
Proof.
  destruct x; reflexivity.
Qed.

Lemma encode_value_chars (s q : str) :
  form.encode_value s = Ok q -> Forall (fun c => payload_char c = true) q.
Proof.
  unfold form.encode_value.
  destruct (urllib.encode_utf8 s) as [bs|]; [|discriminate].
  cbn [rbind]. intros H. apply Ok_inj in H. subst q.
  induction bs as [|x bs IH]; [constructor|].
  cbn [flat_map]. apply Forall_app. split; [|exact IH].
  apply forallb_Forall, encode_byte_chars.
Qed.

(** X11.  The payload of a successful run consists of unreserved
    characters (letters, digits, [-], [.], [_], [~]) and the marks [%],
    [+], [&] and [=] only: whatever text the caller supplies, it contains
    no space, no other reserved character and nothing outside ASCII. *)
Theorem payload_characters
    (cid uri sc method : str) (cvl sl nl : Z) (e : entropy)
    (payload code_verifier : str) (e' : entropy) :
  pkce cid uri sc method cvl sl nl e = Ok (payload, code_verifier, e') ->
  Forall (fun c => payload_char c = true) payload.
Proof.
  intros H. unfold pkce in H.
  destruct (gen_p_Ok_inv _ _ _ _ _ H) as (_ & Hm & _ & _).
  destruct (gen_p_Ok_run _ _ _ _ _ H)
    as (Ecv & _ & _ & _ & _ & _ & q1 & q2 & q3 & E1 & E2 & E3 & Ep).
  cbn [client_id scope redirect_uri code_challenge_method __init__] in *.
  assert (Hcc : Forall (fun c => is_urlsafe c = true)
                  (challenge_of method code_verifier))
    by (apply challenge_of_urlsafe; rewrite Ecv; apply secret_urlsafe).
  rewrite Ep. unfold payload_text.
  repeat (apply Forall_app; split);
    try (apply forallb_Forall; reflexivity).
  - exact (encode_value_chars _ E1).
  - exact (encode_value_chars _ E2).
  - exact (encode_value_chars _ E3).
  - exact (encode_value_chars _ (encode_value_urlsafe Hcc)).
  - destruct Hm as [-> | ->]; apply forallb_Forall; reflexivity.
  - exact (encode_value_chars _ (encode_value_urlsafe (secret_urlsafe _ _))).
  - exact (encode_value_chars _ (encode_value_urlsafe (secret_urlsafe _ _))).
Qed.

Lemma payload_characters_witness :
  pkce (u "abc") (u "https://example.com/cb") (u "openid profile") (u "S256")
       32 16 16 sample_pool
  = Ok (sample_payload, sample_verifier,
        pool_drop 16 (pool_drop 16 (pool_drop 32 sample_pool)))
  /\ Forall (fun c => payload_char c = true) sample_payload.
Proof.
  split; [exact sample_run|].
  exact (@payload_characters
           (u "abc") (u "https://example.com/cb") (u "openid profile")
           (u "S256") 32%Z 16%Z 16%Z sample_pool _ _ _ sample_run).
Defined.

(* ================================================================== *)
(** * The encoding loses nothing *)

Lemma lor_shiftl_add (a c n : N) :
  (c < 2 ^ n)%N -> N.lor (N.shiftl a n) c = (a * 2 ^ n + c)%N.
Proof.
  intros H.
  assert (Hland : N.land (N.shiftl a n) c = 0%N).
  { apply N.bits_inj. intros m. rewrite N.land_spec, N.bits_0.
    destruct (N.lt_ge_cases m n) as [Hm|Hm].
    - now rewrite N.shiftl_spec_low.
    - rewrite <- (N.mod_small c (2 ^ n)) by exact H.
      rewrite N.mod_pow2_bits_high by exact Hm. apply andb_false_r. }
  rewrite <- N.lxor_lor by exact Hland.
  rewrite <- N.add_nocarry_lxor by exact Hland.
  now rewrite N.shiftl_mul_pow2.
Qed.

Lemma quantum_sum (x y z : byte) :
  base64.quantum x y z
  = (Byte.to_N x * 65536 + Byte.to_N y * 256 + Byte.to_N z)%N.
Proof.
  unfold base64.quantum.
  pose proof (to_N_lt_256 y) as Hy. pose proof (to_N_lt_256 z) as Hz.
  rewrite (@lor_shiftl_add (Byte.to_N y) (Byte.to_N z) 8)
    by (change (2 ^ 8)%N with 256%N; exact Hz).
  rewrite lor_shiftl_add
    by (change (2 ^ 8)%N with 256%N; change (2 ^ 16)%N with 65536%N; lia).
  change (2 ^ 8)%N with 256%N. change (2 ^ 16)%N with 65536%N. lia.
Qed.

Lemma sextet_div_mod (q : N) :
  base64.sextet q 3 = ((q / 262144) mod 64)%N
  /\ base64.sextet q 2 = ((q / 4096) mod 64)%N
  /\ base64.sextet q 1 = ((q / 64) mod 64)%N
  /\ base64.sextet q 0 = (q mod 64)%N.
Proof.
  unfold base64.sextet. change 63%N with (N.ones 6).
  rewrite !N.land_ones, !N.shiftr_div_pow2.
  repeat split. now rewrite N.div_1_r.
Qed.

(** The three bytes of a quantum, from its four 6-bit groups. *)
Lemma quantum_bytes (x y z : byte) :
  let q := base64.quantum x y z in
  Byte.to_N x = (base64.sextet q 3 * 4 + base64.sextet q 2 / 16)%N
  /\ Byte.to_N y
     = (base64.sextet q 2 mod 16 * 16 + base64.sextet q 1 / 4)%N
  /\ Byte.to_N z = (base64.sextet q 1 mod 4 * 64 + base64.sextet q 0)%N.
Proof.
  cbv zeta.
  destruct (sextet_div_mod (base64.quantum x y z)) as (-> & -> & -> & ->).
  rewrite quantum_sum.
  pose proof (to_N_lt_256 x). pose proof (to_N_lt_256 y).
  pose proof (to_N_lt_256 z).
  generalize dependent (Byte.to_N z). generalize dependent (Byte.to_N y).
  generalize dependent (Byte.to_N x). intros X HX Y HY Z HZ.
  repeat split; zify; Z.to_euclidean_division_equations; lia.
Qed.

Lemma digit_injective (i j : N) :
  (i < 64)%N -> (j < 64)%N ->
  base64url.digit i = base64url.digit j -> i = j.
Proof.
  intros Hi Hj H. apply N.eqb_eq.
  assert (Hall : forall a, (a < 64)%N -> forall c, (c < 64)%N ->
            implb (Byte.eqb (base64url.digit a) (base64url.digit c))
                  (N.eqb a c) = true).
  { intros a Ha.
    apply (below_64 (fun c => implb (Byte.eqb (base64url.digit a)
                                              (base64url.digit c))
                                    (N.eqb a c))).
    revert a Ha.
    apply (below_64 (fun a => forallb
                       (fun c => implb (Byte.eqb (base64url.digit a)
                                                 (base64url.digit c))
                                       (N.eqb a c))
                       (map N.of_nat (seq 0 64)))).
    vm_compute. reflexivity. }
  specialize (Hall i Hi j Hj).
  rewrite H, (Byte.byte_dec_lb eq_refl) in Hall. exact Hall.
Qed.

Lemma sextet_digit_injective (q q' k : N) :
  base64url.digit (base64.sextet q k) = base64url.digit (base64.sextet q' k) ->
  base64.sextet q k = base64.sextet q' k.
Proof.
  apply digit_injective; apply sextet_lt.
Qed.

Lemma cons_inj {A} (x y : A) (l m : list A) :
  x :: l = y :: m -> x = y /\ l = m.
Proof.
  intros H. inversion H. auto.
Qed.

Lemma encode_injective_same_length (s t : bytes) :
  length s = length t ->
  base64url.encode s = base64url.encode t -> s = t.
Proof.
  revert t.
  induction s as [| x | x y | x y z r IH] using triples_ind;
    intros [|x' [|y' [|z' r']]] Hlen Henc; try discriminate Hlen.
  - reflexivity.
  - cbn [base64url.encode] in Henc. cbv zeta in Henc.
    apply cons_inj in Henc. destruct Henc as [H3 Henc].
    apply cons_inj in Henc. destruct Henc as [H2 _].
    apply sextet_digit_injective in H3, H2.
    destruct (quantum_bytes x x00 x00) as (Ex & _ & _).
    destruct (quantum_bytes x' x00 x00) as (Ex' & _ & _).
    rewrite H3, H2, <- Ex' in Ex. apply to_N_inj in Ex. now subst.
  - cbn [base64url.encode] in Henc. cbv zeta in Henc.
    apply cons_inj in Henc. destruct Henc as [H3 Henc].
    apply cons_inj in Henc. destruct Henc as [H2 Henc].
    apply cons_inj in Henc. destruct Henc as [H1 _].
    apply sextet_digit_injective in H3, H2, H1.
    destruct (quantum_bytes x y x00) as (Ex & Ey & _).
    destruct (quantum_bytes x' y' x00) as (Ex' & Ey' & _).
    rewrite H3, H2, <- Ex' in Ex. rewrite H2, H1, <- Ey' in Ey.
    apply to_N_inj in Ex, Ey. now subst.
  - cbn [base64url.encode] in Henc. cbv zeta in Henc.
    apply cons_inj in Henc. destruct Henc as [H3 Henc].
    apply cons_inj in Henc. destruct Henc as [H2 Henc].
    apply cons_inj in Henc. destruct Henc as [H1 Henc].
    apply cons_inj in Henc. destruct Henc as [H0 Henc].
    apply sextet_digit_injective in H3, H2, H1, H0.
    destruct (quantum_bytes x y z) as (Ex & Ey & Ez).
    destruct (quantum_bytes x' y' z') as (Ex' & Ey' & Ez').
    rewrite H3, H2, <- Ex' in Ex. rewrite H2, H1, <- Ey' in Ey.
    rewrite H1, H0, <- Ez' in Ez.
    apply to_N_inj in Ex, Ey, Ez. subst.
    f_equal. f_equal. f_equal. apply IH; [|exact Henc].
    cbn [length] in Hlen. lia.
Qed.

Lemma encode_injective (s t : bytes) :
  base64url.encode s = base64url.encode t -> s = t.
Proof.
  intros H. apply encode_injective_same_length; [|exact H].
  assert (E : base64url.encoded_length (length s)
              = base64url.encoded_length (length t))
    by now rewrite <- !encode_length, H.
  unfold base64url.encoded_length in E.
  pose proof (Nat.div_mod_eq (4 * length s + 2) 3).
  pose proof (Nat.mod_upper_bound (4 * length s + 2) 3 ltac:(discriminate)).
  pose proof (Nat.div_mod_eq (4 * length t + 2) 3).
  pose proof (Nat.mod_upper_bound (4 * length t + 2) 3 ltac:(discriminate)).
  lia.
Qed.

Lemma ascii_text_injective (s t : bytes) :
  ascii_text s = ascii_text t -> s = t.
Proof.
  intros H. rewrite <- (ascii_bytes_text s), <- (ascii_bytes_text t).
  now rewrite H.
Qed.

(** X12.  The code verifier keeps all the entropy drawn for it: two
    calls of [_code_v] that return the same verifier asked for the same
    number of bytes and drew the same bytes. *)
Theorem code_v_keeps_the_entropy
    (self : PKCE) (n1 n2 : Z) (e1 e2 : entropy)
    (code_verifier : str) (r1 r2 : entropy) :
  _code_v self n1 e1 = Ok (code_verifier, r1) ->
  _code_v self n2 e2 = Ok (code_verifier, r2) ->
  n1 = n2
  /\ pool_slice 0 (Z.to_nat n1) e1 = pool_slice 0 (Z.to_nat n2) e2.
Proof.
  intros H1 H2.
  assert (B1 : (32 <= n1 <= 128)%Z).
  { assert (D : (32 <= n1 <= 128)%Z \/ ~ (32 <= n1 <= 128)%Z) by lia.
    destruct D as [D|D]; [exact D|].
    rewrite code_v_out_of_bounds in H1 by exact D. discriminate. }
  assert (B2 : (32 <= n2 <= 128)%Z).
  { assert (D : (32 <= n2 <= 128)%Z \/ ~ (32 <= n2 <= 128)%Z) by lia.
    destruct D as [D|D]; [exact D|].
    rewrite code_v_out_of_bounds in H2 by exact D. discriminate. }
  rewrite code_v_in_bounds in H1, H2 by assumption.
  apply Ok_inj in H1, H2.
  assert (E : ascii_text (base64url.encode (pool_take (Z.to_nat n1) e1))
              = ascii_text (base64url.encode (pool_take (Z.to_nat n2) e2)))
    by congruence.
  apply ascii_text_injective, encode_injective in E.
  split; [|exact E].
  assert (L : length (pool_take (Z.to_nat n1) e1)
              = length (pool_take (Z.to_nat n2) e2)) by now rewrite E.
  unfold pool_take in L. rewrite !length_map, !length_seq in L. lia.
Qed.

Lemma code_v_keeps_the_entropy_witness :
  _code_v (__init__ (u "abc") (u "https://example.com/cb")
                    (u "openid") (u "S256")) 32 sample_pool
  = Ok (sample_verifier, pool_drop 32 sample_pool)
  /\ pool_slice 0 32 sample_pool = pool_slice 0 32 sample_pool.
Proof.
  assert (H : _code_v (__init__ (u "abc") (u "https://example.com/cb")
                                (u "openid") (u "S256")) 32 sample_pool
              = Ok (sample_verifier, pool_drop 32 sample_pool))
    by (vm_compute; reflexivity).
  split; [exact H|].
  exact (proj2 (@code_v_keeps_the_entropy
                  (__init__ (u "abc") (u "https://example.com/cb")
                            (u "openid") (u "S256"))
                  32%Z 32%Z sample_pool sample_pool _ _ _ H H)).
Defined.
